(** * Burger Queen API: authorization and identity resolution

    A shallow embedding of the route handlers of [src/routes/users.js]
    (the [/users] routes, [initAdminUser] and the [/orders] routes), of
    the login route of [src/routes/auth.js] and of the product routes,
    together with the properties the specification states about them and
    further properties read off the handlers.

    The handlers are [async] Express callbacks that talk to a MongoDB
    collection.  They are embedded as computations in a small state and
    exception monad over the database; every driver call is recorded in a
    log, so that "no store access" is a statement about that log. *)

From Stdlib Require Import String Ascii ZArith List Bool Lia.
From stdpp Require Import base option gmap strings list fin_maps.

Set Warnings "-register-all".

Local Open Scope string_scope.
Local Open Scope Z_scope.

(** ** JavaScript values *)

Module JS.

(** The values a parsed JSON body, a request property or a stored document
    field can hold.  [JUndefined] is what reading an absent property gives.
    Strings are kept as their UTF-8 bytes.  Numbers are integers: the
    handlers only ever test a number for being zero and for equality.
    [JFun] stands for a built-in function object, named. *)
Inductive jsval : Type :=
| JUndefined
| JNull
| JBool (b : bool)
| JNum (n : Z)
| JStr (s : string)
| JArr (items : list jsval)
| JObj (props : list (string * jsval))
| JFun (name : string).

(** The global [Number] constructor, a function object. *)
Definition Number : jsval := JFun "Number".

(** [!!v]: the truthiness of a value. *)
Definition truthy (v : jsval) : bool :=
  match v with
  | JUndefined | JNull => false
  | JBool b => b
  | JNum n => negb (n =? 0)
  | JStr s => negb (s =? "")%string
  | JArr _ | JObj _ | JFun _ => true
  end.

(** [a === b].  Arrays and objects compare by identity; two values that
    come from different places (a parsed body, a request property, a
    literal) are never the same object. *)
Definition strict_eq (a b : jsval) : bool :=
  match a, b with
  | JUndefined, JUndefined => true
  | JNull, JNull => true
  | JBool x, JBool y => Bool.eqb x y
  | JNum x, JNum y => (x =? y)
  | JStr x, JStr y => (x =? y)%string
  | JFun x, JFun y => (x =? y)%string
  | _, _ => false
  end.

(** [s.includes(needle)] *)
Fixpoint includes (needle s : string) : bool :=
  String.prefix needle s
  || match s with
     | EmptyString => false
     | String _ rest => includes needle rest
     end.

(** Reading a property of a plain object: [o.k], [undefined] when absent. *)
Definition prop (o : gmap string jsval) (k : string) : jsval :=
  default JUndefined (o !! k).

(** [Object.keys(o).length === 0] *)
Definition no_keys (o : gmap string jsval) : bool :=
  bool_decide (size o = 0%nat).

(** Reading a property of an arbitrary value: [undefined] for primitives
    and arrays (only named properties are ever read), [None] where
    JavaScript raises a [TypeError] (reading from [null] or
    [undefined]). *)
Fixpoint assoc (k : string) (l : list (string * jsval)) : jsval :=
  match l with
  | [] => JUndefined
  | (k', v) :: rest => if (k =? k')%string then v else assoc k rest
  end.

Definition member (v : jsval) (k : string) : option jsval :=
  match v with
  | JUndefined | JNull => None
  | JObj props => Some (assoc k props)
  | _ => Some JUndefined
  end.

(** [JSON.stringify] leaves out the properties whose value is
    [undefined]; [json] builds the object a response carries. *)
Definition is_undefined (v : jsval) : bool :=
  match v with JUndefined => true | _ => false end.

Definition json (props : list (string * jsval)) : jsval :=
  JObj (List.filter (fun kv => negb (is_undefined (snd kv))) props).

(** Structural equality of values, as the database compares them. *)
Fixpoint jsval_eqb (a b : jsval) {struct a} : bool :=
  let fix list_eqb (l1 l2 : list jsval) {struct l1} : bool :=
    match l1, l2 with
    | [], [] => true
    | x :: l1', y :: l2' => jsval_eqb x y && list_eqb l1' l2'
    | _, _ => false
    end in
  let fix props_eqb (l1 l2 : list (string * jsval)) {struct l1} : bool :=
    match l1, l2 with
    | [], [] => true
    | (k1, x) :: l1', (k2, y) :: l2' =>
        (k1 =? k2)%string && jsval_eqb x y && props_eqb l1' l2'
    | _, _ => false
    end in
  match a, b with
  | JUndefined, JUndefined => true
  | JNull, JNull => true
  | JBool x, JBool y => Bool.eqb x y
  | JNum x, JNum y => (x =? y)
  | JStr x, JStr y => (x =? y)%string
  | JArr l1, JArr l2 => list_eqb l1 l2
  | JObj l1, JObj l2 => props_eqb l1 l2
  | JFun x, JFun y => (x =? y)%string
  | _, _ => false
  end.

End JS.
Export JS.

(** ** BSON object identifiers *)

Module Bson.

(** An [ObjectId] is its twelve bytes. *)
Record ObjectId : Type := { id_bytes : string }.

Definition ObjectId_eqb (a b : ObjectId) : bool :=
  (id_bytes a =? id_bytes b)%string.

Definition hex_digit (c : ascii) : option N :=
  let n := N_of_ascii c in
  if ((48 <=? n) && (n <=? 57))%N then Some (n - 48)%N
  else if ((97 <=? n) && (n <=? 102))%N then Some (n - 87)%N
  else if ((65 <=? n) && (n <=? 70))%N then Some (n - 55)%N
  else None.

Definition is_hex_digit (c : ascii) : bool :=
  match hex_digit c with Some _ => true | None => false end.

Fixpoint all_hex (s : string) : bool :=
  match s with
  | EmptyString => true
  | String c rest => is_hex_digit c && all_hex rest
  end.

(** [/^[0-9a-fA-F]{24}$/.test(s)] *)
Definition hex24 (s : string) : bool :=
  (String.length s =? 24)%nat && all_hex s.

Fixpoint all_ascii (s : string) : bool :=
  match s with
  | EmptyString => true
  | String c rest => (N_of_ascii c <? 128)%N && all_ascii rest
  end.

Fixpoint fromHex (s : string) : option string :=
  match s with
  | EmptyString => Some EmptyString
  | String a (String b rest) =>
      match hex_digit a, hex_digit b, fromHex rest with
      | Some h, Some l, Some bytes =>
          Some (String (ascii_of_N (16 * h + l)) bytes)
      | _, _, _ => None
      end
  | String _ EmptyString => None
  end.

Definition to_hex_digit (n : N) : ascii :=
  if (n <? 10)%N then ascii_of_N (48 + n) else ascii_of_N (87 + n).

(** [id.toHexString()], which is also how an identifier is written in a
    JSON response. *)
Fixpoint hex_of_bytes (s : string) : string :=
  match s with
  | EmptyString => EmptyString
  | String c rest =>
      let n := N_of_ascii c in
      String (to_hex_digit (n / 16)) (String (to_hex_digit (n mod 16))
        (hex_of_bytes rest))
  end.

Definition toHexString (i : ObjectId) : string := hex_of_bytes (id_bytes i).

(** [new ObjectId(s)] for a string [s], as the [bson] package of the
    driver generations that return [{ value }] from [findOneAndUpdate]
    does it: a string of twelve bytes is taken as the bytes themselves, a
    string of 24 hexadecimal digits is decoded, and every other string
    makes the constructor throw.  [None] is the throw. *)
Definition new_ObjectId (s : string) : option ObjectId :=
  if (String.length s =? 12)%nat then
    if all_ascii s then Some {| id_bytes := s |} else None
  else if hex24 s then
    match fromHex s with
    | Some bytes => Some {| id_bytes := bytes |}
    | None => None
    end
  else None.

End Bson.
Export Bson.

(** ** The database and the driver calls *)

Module Store.

(** A stored document: its [_id] and its other fields. *)
Record document : Type := { _id : ObjectId; fields : gmap string jsval }.

(** The two collections the modelled routes use. *)
Inductive collection : Type := Users | Orders.

Record db : Type := { users : list document; orders : list document }.

Definition docs (c : collection) (d : db) : list document :=
  match c with Users => users d | Orders => orders d end.

Definition set_docs (c : collection) (l : list document) (d : db) : db :=
  match c with
  | Users => {| users := l; orders := orders d |}
  | Orders => {| users := users d; orders := l |}
  end.

(** The two query documents the handlers build: [{ email: v }] and
    [{ _id: id }]. *)
Inductive query : Type :=
| ByEmail (v : jsval)
| ById (id : ObjectId).

(** Equality match of a query value against a field: the field holds
    that value, or holds an array with that value among its elements; a
    [null] query value also matches a document without the field.
    Operator documents ([{ $gt: ... }]) are not interpreted: the match is
    the server's for query values that are strings, numbers or booleans,
    and the properties below that rest on a lookup by email take a
    string as the email. *)
Definition value_matches (q : jsval) (field : option jsval) : bool :=
  match field with
  | None => is_undefined q || jsval_eqb q JNull
  | Some v =>
      jsval_eqb q v
      || match v with
         | JArr items => existsb (jsval_eqb q) items
         | _ => false
         end
  end.

Definition matches (q : query) (d : document) : bool :=
  match q with
  | ByEmail v => value_matches v (fields d !! "email"%string)
  | ById id => ObjectId_eqb id (_id d)
  end.

(** Replaces the first document that [q] selects by [f] of it. *)
Fixpoint update_first (q : query) (f : document -> document)
    (l : list document) : list document :=
  match l with
  | [] => []
  | d :: rest =>
      if matches q d then f d :: rest else d :: update_first q f rest
  end.

(** Removes the first document that [q] selects. *)
Fixpoint delete_first (q : query) (l : list document) : list document :=
  match l with
  | [] => []
  | d :: rest => if matches q d then rest else d :: delete_first q rest
  end.

(** [{ $set: body }]: the fields of [body] overwrite those of the
    document.  This is what the server does for keys that name a
    top-level field (no dot, no leading dollar sign); the properties
    below that say what an update stores take such keys only. *)
Definition apply_set (body : gmap string jsval) (d : document) : document :=
  {| _id := _id d; fields := body ∪ fields d |}.

(** What the log records: opening and closing the client, and each call
    on a collection. *)
Inductive event : Type :=
| Connect
| Close
| FindOne (c : collection) (q : query)
| InsertOne (c : collection) (doc : gmap string jsval)
| FindOneAndUpdate (c : collection) (q : query) (set : gmap string jsval)
| FindOneAndDelete (c : collection) (q : query).

(** The calls that read or write a collection. *)
Definition is_store_call (e : event) : bool :=
  match e with
  | Connect | Close => false
  | _ => true
  end.

Definition is_insert (e : event) : bool :=
  match e with InsertOne _ _ => true | _ => false end.

Definition is_update (e : event) : bool :=
  match e with FindOneAndUpdate _ _ _ => true | _ => false end.

(** What is outside the sources: the salted hash of [bcrypt] (the salt is
    left out), the identifier the driver gives an inserted document, and
    whether the driver still honours the option [returnOriginal: false]
    (generation 3 does and returns the updated document; later ones
    ignore it and return the document as it was before the update). *)
Record Env : Type := {
  bcrypt_hash : string -> string;
  gen_ObjectId : list document -> ObjectId;
  honours_returnOriginal : bool
}.

(** Exceptions a handler can end with: the promise of the [async]
    callback is rejected and no response is sent. *)
Inductive exn : Type :=
| BSONError
| TypeError
| BcryptError
| MongoServerError.

Record world : Type := { store : db; log : list event }.

(** A computation: reads and writes the database, appends to the log,
    and returns a value or throws. *)
Definition M (A : Type) : Type := world -> (exn + A) * world.

Definition ret {A} (a : A) : M A := fun w => (inr a, w).

Definition throw {A} (e : exn) : M A := fun w => (inl e, w).

Definition bind {A B} (m : M A) (k : A -> M B) : M B :=
  fun w =>
    match m w with
    | (inl e, w') => (inl e, w')
    | (inr a, w') => k a w'
    end.

(** [try { m } catch (err) { h err }] *)
Definition try_catch {A} (m : M A) (h : exn -> M A) : M A :=
  fun w =>
    match m w with
    | (inl e, w') => h e w'
    | (inr a, w') => (inr a, w')
    end.

Definition emit (e : event) : M unit :=
  fun w => (inr tt, {| store := store w; log := log w ++ [e] |}).

Definition get_docs (c : collection) : M (list document) :=
  fun w => (inr (docs c (store w)), w).

Definition put_docs (c : collection) (l : list document) : M unit :=
  fun w => (inr tt, {| store := set_docs c l (store w); log := log w |}).

Definition lift_option {A} (e : exn) (o : option A) : M A :=
  match o with Some a => ret a | None => throw e end.

Declare Scope js_scope.
Delimit Scope js_scope with js.
Notation "x <- m ;; k" := (bind m (fun x => k))
  (at level 100, m at next level, k at level 200, only parsing) : js_scope.
Notation "m ;; k" := (bind m (fun _ => k))
  (at level 100, k at level 200, only parsing) : js_scope.
Local Open Scope js_scope.

(** [await client.connect()] and [await client.close()] *)
Definition connect : M unit := emit Connect.
Definition close : M unit := emit Close.

(** [await collection.findOne(q)]: the first matching document or
    [null]. *)
Definition findOne (c : collection) (q : query) : M (option document) :=
  emit (FindOne c q) ;;
  l <- get_docs c ;;
  ret (List.find (matches q) l).

(** [await collection.insertOne(doc)]: the driver gives the document an
    [_id] and returns it as [insertedId]. *)
Definition insertOne (E : Env) (c : collection) (doc : gmap string jsval)
  : M ObjectId :=
  emit (InsertOne c doc) ;;
  l <- get_docs c ;;
  let id := gen_ObjectId E l in
  put_docs c (l ++ [{| _id := id; fields := doc |}]) ;;
  ret id.

(** [await collection.findOneAndUpdate(q, { $set: body }, { returnOriginal:
    false })]: the [value] of the result, [null] when no document
    matches.  The server refuses an update that names [_id]. *)
Definition findOneAndUpdate (E : Env) (c : collection) (q : query)
    (body : gmap string jsval) : M (option document) :=
  emit (FindOneAndUpdate c q body) ;;
  l <- get_docs c ;;
  match List.find (matches q) l with
  | None => ret None
  | Some d =>
      match body !! "_id"%string with
      | Some _ => throw MongoServerError
      | None =>
          put_docs c (update_first q (apply_set body) l) ;;
          ret (Some (if honours_returnOriginal E then apply_set body d else d))
      end
  end.

(** [await collection.findOneAndDelete(q)]: the [value] of the result. *)
Definition findOneAndDelete (c : collection) (q : query)
  : M (option document) :=
  emit (FindOneAndDelete c q) ;;
  l <- get_docs c ;;
  match List.find (matches q) l with
  | None => ret None
  | Some d => put_docs c (delete_first q l) ;; ret (Some d)
  end.

(** [bcrypt.hashSync(data, 10)] and [await bcrypt.hash(data, 10)]: both
    fail on data that is not a string. *)
Definition bcrypt (E : Env) (data : jsval) : M jsval :=
  match data with
  | JStr s => ret (JStr (bcrypt_hash E s))
  | _ => throw BcryptError
  end.

End Store.
Export Store.

(** ** The route handlers of [src/routes/users.js] *)

Module Routes.

Local Open Scope js_scope.

(** What a handler reads from [req]: the path parameter ([req.params.uid]
    or [req.params.orderId], always a string), the parsed JSON body, and
    the three properties the authentication middleware leaves on the
    request. *)
Record request : Type := {
  param : string;
  body : gmap string jsval;
  userId : jsval;
  isAdmin : jsval;
  thisEmail : jsval
}.

(** The argument of [next]. *)
Inductive next_arg : Type :=
| NoArg
| Code (n : Z)
| Thrown (e : exn).

(** How a handler answers: [resp.status(s).json(b)] or [next(a)]. *)
Inductive response : Type :=
| Json (status : Z) (payload : jsval)
| Next (a : next_arg).

Definition error (msg : string) : jsval := json [("error", JStr msg)].

(** [{ id: u._id, email: u.email, role: u.role }] *)
Definition user_json (u : document) : jsval :=
  json [("id", JStr (toHexString (_id u)));
        ("email", prop (fields u) "email");
        ("role", prop (fields u) "role")].

(** [GET /users/:uid] *)
Definition get_users_uid (req : request) : M response :=
  let uid := param req in
  let email := JStr uid in
  connect ;;
  let isAdmin := strict_eq (isAdmin req) (JBool true) in
  let isAuthorized :=
    strict_eq (userId req) (JStr uid) || isAdmin
    || strict_eq (thisEmail req) (JStr uid) in
  if negb isAuthorized then
    close ;;
    ret (Json 403 (error "No tienes autorización para hacer esta petición"))
  else
    users <- (if includes "@" uid then findOne Users (ByEmail email)
              else if strict_eq (JStr uid) Number then
                _id <- lift_option BSONError (new_ObjectId uid) ;;
                findOne Users (ById _id)
              else ret None) ;;
    match users with
    | Some u => close ;; ret (Json 200 (user_json u))
    | None => close ;; ret (Json 404 (error "Usuario no encontrado"))
    end.

(** [POST /users].  The two tests [if (!user)] and [if (user)] that end
    the handler are the two branches of the final match. *)
Definition post_users (E : Env) (req : request) : M response :=
  let email := prop (body req) "email" in
  let password := prop (body req) "password" in
  let role := prop (body req) "role" in
  if negb (truthy email) || negb (truthy password) || negb (truthy role) then
    ret (Next (Code 400))
  else
    connect ;;
    let isAdmin := strict_eq (isAdmin req) (JBool true) in
    if negb isAdmin then
      close ;;
      ret (Json 403 (error "No tienes autorización para postear un usuario"))
    else
      user <- findOne Users (ByEmail email) ;;
      match user with
      | None =>
          hashed <- bcrypt E password ;;
          let newUser : gmap string jsval :=
            <["email" := email]> (<["password" := hashed]>
              (<["role" := role]> ∅)) in
          insertedId <- insertOne E Users newUser ;;
          close ;;
          ret (Json 200 (json [("id", JStr (toHexString insertedId));
                               ("email", email); ("role", role)]))
      | Some _ =>
          close ;;
          ret (Json 403 (error "Usuario existe "))
      end.

(** [PATCH /users/:uid], from the hashing of the password on: what the
    handler does once the request has passed its checks. *)
Definition patch_users_update (E : Env) (req : request) (isAdmin : bool)
  : M response :=
  let uid := param req in
  let password := prop (body req) "password" in
  body' <- (if truthy password then
              hashedPassword <- bcrypt E password ;;
              ret (<["password" := hashedPassword]> (body req))
            else ret (body req)) ;;
  user <- (if includes "@" uid then
             findOneAndUpdate E Users (ByEmail (JStr uid)) body'
           else
             userId <- lift_option BSONError (new_ObjectId uid) ;;
             findOneAndUpdate E Users (ById userId) body') ;;
  match user with
  | Some u => close ;; ret (Json 200 (user_json u))
  | None =>
      if isAdmin then
        close ;; ret (Json 404 (error "Usuario no encontrado"))
      else
        close ;; ret (Json 404 (error "Usuario no encontrado"))
  end.

(** [PATCH /users/:uid] *)
Definition patch_users_uid (E : Env) (req : request) : M response :=
  let uid := param req in
  let email := prop (body req) "email" in
  let password := prop (body req) "password" in
  let role := prop (body req) "role" in
  connect ;;
  if strict_eq email (JStr "") || strict_eq password (JStr "")
     || no_keys (body req) then
    close ;;
    ret (Json 400 (error "Los valores a actualizar no pueden estar vacios"))
  else
    let isAdmin_ := strict_eq (isAdmin req) (JBool true) in
    let isUser :=
      strict_eq (userId req) (JStr uid)
      || strict_eq (thisEmail req) (JStr uid) in
    let isAuthorized := isUser || isAdmin_ in
    if negb isAuthorized then
      close ;;
      ret (Json 403
             (error "No tienes autorización para modificar este usuario"))
    else if negb isAdmin_ && truthy role
            && negb (strict_eq role (isAdmin req)) then
      close ;;
      ret (Json 403
             (error "No tienes autorización para cambiar el role del usuario"))
    else patch_users_update E req isAdmin_.

(** [DELETE /users/:uid] *)
Definition delete_users_uid (req : request) : M response :=
  let uid := param req in
  connect ;;
  let isAdmin := strict_eq (isAdmin req) (JBool true) in
  let isAuthorized :=
    strict_eq (userId req) (JStr uid) || isAdmin
    || strict_eq (thisEmail req) (JStr uid) in
  if negb isAuthorized then
    close ;;
    ret (Json 403 (error "No tienes autorización para eliminar este usuario"))
  else
    user <- (if includes "@" uid then
               findOneAndDelete Users (ByEmail (JStr uid))
             else
               userId <- lift_option BSONError (new_ObjectId uid) ;;
               findOneAndDelete Users (ById userId)) ;;
    match user with
    | Some u => close ;; ret (Json 200 (user_json u))
    | None => close ;; ret (Json 404 (error "Usuario no encontrado"))
    end.

(** The part of [app.get('config')] that [initAdminUser] reads. *)
Record config : Type := { adminEmail : jsval; adminPassword : jsval }.

(** [initAdminUser].  The hash is computed before the [try] block. *)
Definition initAdminUser (E : Env) (cfg : config) : M response :=
  if negb (truthy (adminEmail cfg)) || negb (truthy (adminPassword cfg)) then
    ret (Next NoArg)
  else
    hashed <- bcrypt E (adminPassword cfg) ;;
    let adminUser : gmap string jsval :=
      <["email" := adminEmail cfg]> (<["password" := hashed]>
        (<["role" := JStr "admin"]> ∅)) in
    try_catch
      (connect ;;
       user <- findOne Users (ByEmail (adminEmail cfg)) ;;
       (match user with
        | None => insertOne E Users adminUser ;; ret tt
        | Some _ => ret tt
        end) ;;
       close ;;
       ret (Next NoArg))
      (fun err => ret (Next (Thrown err))).

(** [products.map((product) => ({ qty: product.qty, product:
    product.product }))]: a [TypeError] when [products] is not an array or
    an element is [null]. *)
Definition product_json (p : jsval) : M jsval :=
  qty <- lift_option TypeError (member p "qty") ;;
  product <- lift_option TypeError (member p "product") ;;
  ret (json [("qty", qty); ("product", product)]).

Fixpoint map_products (items : list jsval) : M (list jsval) :=
  match items with
  | [] => ret []
  | p :: rest =>
      x <- product_json p ;;
      xs <- map_products rest ;;
      ret (x :: xs)
  end.

Definition products_map (products : jsval) : M jsval :=
  match products with
  | JArr items => xs <- map_products items ;; ret (JArr xs)
  | _ => throw TypeError
  end.

Definition order_json (o : document) : M jsval :=
  products <- products_map (prop (fields o) "products") ;;
  ret (json [("_id", JStr (toHexString (_id o)));
             ("userId", prop (fields o) "userId");
             ("client", prop (fields o) "client");
             ("products", products);
             ("status", prop (fields o) "status");
             ("dateEntry", prop (fields o) "dateEntry");
             ("dateProcessed", prop (fields o) "dateProcessed")]).

(** The test on [status] in [PATCH /orders/:orderId]: none of the five
    comparisons [status !== '...'] fails. *)
Definition status_rejected (status : jsval) : bool :=
  negb (strict_eq status (JStr "delivered"))
  && negb (strict_eq status (JStr "pending"))
  && negb (strict_eq status (JStr "canceled"))
  && negb (strict_eq status (JStr "delivering"))
  && negb (strict_eq status (JStr "preparing")).

(** [PATCH /orders/:orderId] *)
Definition patch_orders_orderId (E : Env) (req : request) : M response :=
  let orderId := param req in
  let userId := prop (body req) "userId" in
  let client := prop (body req) "client" in
  let products := prop (body req) "products" in
  let status := prop (body req) "status" in
  let dateEntry := prop (body req) "dateEntry" in
  let dateProcessed := prop (body req) "dateProcessed" in
  connect ;;
  if no_keys (body req) || strict_eq userId (JStr "")
     || strict_eq client (JStr "") || strict_eq dateEntry (JStr "")
     || strict_eq products (JStr "") || strict_eq status (JStr "")
     || strict_eq dateProcessed (JStr "") then
    close ;;
    ret (Json 400 (error "Los valores a actualizar no pueden estar vacios"))
  else
    let isAdmin := strict_eq (isAdmin req) (JBool true) in
    if negb isAdmin then
      close ;;
      ret (Json 403
             (error "No tienes autorización para modificar este usuario"))
    else
      order <- (if hex24 orderId then
                  if status_rejected status then
                    close ;;
                    ret (inl (Json 400 (error "El status no es el correcto")))
                  else
                    _id <- lift_option BSONError (new_ObjectId orderId) ;;
                    o <- findOneAndUpdate E Orders (ById _id) (body req) ;;
                    ret (inr o)
                else
                  close ;;
                  ret (inl (Json 404 (error "Producto no encontrado")))) ;;
      match order with
      | inl early => ret early
      | inr (Some o) =>
          close ;;
          payload <- order_json o ;;
          ret (Json 200 payload)
      | inr None =>
          close ;; ret (Json 404 (error "Producto no encontrado"))
      end.

(** Running a handler on a database, with an empty log. *)
Definition run {A} (m : M A) (d : db) : (exn + A) * world :=
  m {| store := d; log := [] |}.

Definition outcome {A} (m : M A) (d : db) : exn + A := fst (run m d).
Definition db_after {A} (m : M A) (d : db) : db := store (snd (run m d)).
Definition log_of {A} (m : M A) (d : db) : list event := log (snd (run m d)).

(** The calls on a collection among the events of a log. *)
Definition store_calls (l : list event) : list event :=
  List.filter is_store_call l.

End Routes.
Export Routes.

(** ** The notions the specification uses *)

Module Policy.

(** The three operations on one user. *)
Inductive user_op : Type := Read | Update | Delete.

Definition user_handler (E : Env) (op : user_op) (req : request)
  : M response :=
  match op with
  | Read => get_users_uid req
  | Update => patch_users_uid E req
  | Delete => delete_users_uid req
  end.

(** The caller is the target, by identifier or by email, or is an
    administrator. *)
Definition self_or_admin (req : request) : bool :=
  strict_eq (userId req) (JStr (param req))
  || strict_eq (thisEmail req) (JStr (param req))
  || strict_eq (isAdmin req) (JBool true).

(** The request is answered 403, the client having only been opened and
    closed: no call on a collection, and the database as it was. *)
Definition refused (m : M response) (d : db) : Prop :=
  exists msg,
    run m d = (inr (Json 403 (error msg)),
               {| store := d; log := [Connect; Close] |}).

(** The first test of [PATCH /users/:uid]. *)
Definition empty_values (b : gmap string jsval) : bool :=
  strict_eq (prop b "email") (JStr "")
  || strict_eq (prop b "password") (JStr "")
  || no_keys b.

(** The test on [role] of [PATCH /users/:uid]. *)
Definition role_change_refused (req : request) : bool :=
  negb (strict_eq (isAdmin req) (JBool true))
  && truthy (prop (body req) "role")
  && negb (strict_eq (prop (body req) "role") (isAdmin req)).

(** A field that is absent or is the empty string. *)
Definition missing_or_empty (field : option jsval) : Prop :=
  field = None \/ field = Some (JStr "").

(** The number of user records a lookup by the email [e] selects. *)
Definition count_email (e : string) (d : db) : nat :=
  List.length (List.filter (matches (ByEmail (JStr e))) (users d)).

(** The five states of an order that [PATCH /orders/:orderId] names. *)
Definition statuses : list string :=
  ["pending"; "canceled"; "delivering"; "delivered"; "preparing"].

Definition recognized_status (v : jsval) : bool :=
  match v with
  | JStr s => existsb (String.eqb s) statuses
  | _ => false
  end.

(** The first test of [PATCH /orders/:orderId]. *)
Definition order_empty_values (b : gmap string jsval) : bool :=
  no_keys b || strict_eq (prop b "userId") (JStr "")
  || strict_eq (prop b "client") (JStr "")
  || strict_eq (prop b "dateEntry") (JStr "")
  || strict_eq (prop b "products") (JStr "")
  || strict_eq (prop b "status") (JStr "")
  || strict_eq (prop b "dateProcessed") (JStr "").

(** The specification's sentences that the handlers do not satisfy as
    they are written; each is refuted below and proved in an amended
    form. *)

(** A read, update or delete is refused with 403 and without store
    access exactly when the caller is neither the target nor an
    administrator. *)
Definition authorization_as_stated (E : Env) (op : user_op) (req : request)
    (d : db) : Prop :=
  refused (user_handler E op req) d <-> self_or_admin req = false.

(** An update by a caller who is not an administrator, with a [role]
    field in the body, is refused with 403. *)
Definition role_change_as_stated (E : Env) (req : request) (d : db) : Prop :=
  strict_eq (isAdmin req) (JBool true) = false ->
  is_Some (body req !! "role") ->
  refused (patch_users_uid E req) d.

(** A creation by an administrator with an email that a stored user has
    is answered 403 and leaves the database as it was. *)
Definition duplicate_email_as_stated (E : Env) (req : request) (d : db)
  : Prop :=
  strict_eq (isAdmin req) (JBool true) = true ->
  (exists e u, body req !! "email" = Some e /\ In u (users d)
               /\ fields u !! "email" = Some e) ->
  (exists p, outcome (post_users E req) d = inr (Json 403 p))
  /\ db_after (post_users E req) d = d.

(** Two runs of the provisioning leave exactly one record with the
    administrator's email, and the second run inserts nothing and ends
    with [next()]. *)
Definition bootstrap_twice_as_stated (E : Env) (e p : string) (d : db)
  : Prop :=
  let cfg := {| adminEmail := JStr e; adminPassword := JStr p |} in
  let d1 := db_after (initAdminUser E cfg) d in
  count_email e (db_after (initAdminUser E cfg) d1) = 1%nat
  /\ List.filter is_insert (log_of (initAdminUser E cfg) d1) = []
  /\ outcome (initAdminUser E cfg) d1 = inr (Next NoArg).

(** For an administrator and a 24-digit hexadecimal order identifier: a
    status among the five goes on to the update of the store, any other
    is answered 400 without a call on the store. *)
Definition status_validation_as_stated (E : Env) (req : request) (d : db)
  : Prop :=
  strict_eq (isAdmin req) (JBool true) = true ->
  hex24 (param req) = true ->
  if recognized_status (prop (body req) "status") then
    exists id,
      List.filter is_update (log_of (patch_orders_orderId E req) d)
      = [FindOneAndUpdate Orders (ById id) (body req)]
  else
    (exists p, outcome (patch_orders_orderId E req) d = inr (Json 400 p))
    /\ store_calls (log_of (patch_orders_orderId E req) d) = []
    /\ db_after (patch_orders_orderId E req) d = d.

(** An order update whose body is not empty and has no [status] field is
    answered 400 and updates nothing. *)
Definition missing_status_as_stated (E : Env) (req : request) (d : db)
  : Prop :=
  body req <> ∅ ->
  body req !! "status" = None ->
  (exists p, outcome (patch_orders_orderId E req) d = inr (Json 400 p))
  /\ store_calls (log_of (patch_orders_orderId E req) d) = []
  /\ db_after (patch_orders_orderId E req) d = d.

End Policy.
Export Policy.

(** ** Sample data, for the instances below *)

Module Sample.

Definition E0 : Env := {|
  bcrypt_hash := fun s => ("$2b$10$" ++ s)%string;
  gen_ObjectId := fun _ => {| id_bytes := "abcdefghijkl" |};
  honours_returnOriginal := false
|}.

Definition obj (l : list (string * jsval)) : gmap string jsval :=
  list_to_map l.

(** A waiter, whose identifier reads [414141414141414141414141]. *)
Definition ana : document := {|
  _id := {| id_bytes := "AAAAAAAAAAAA" |};
  fields := obj [("email", JStr "ana@bq.com"); ("password", JStr "$2b$10$x");
                 ("role", JStr "waiter")]
|}.

Definition root : document := {|
  _id := {| id_bytes := "BBBBBBBBBBBB" |};
  fields := obj [("email", JStr "admin@bq.com");
                 ("password", JStr "$2b$10$y"); ("role", JStr "admin")]
|}.

Definition order1 : document := {|
  _id := {| id_bytes := "DDDDDDDDDDDD" |};
  fields := obj [("userId", JStr "414141414141414141414141");
                 ("client", JStr "Eva"); ("products", JArr []);
                 ("status", JStr "pending")]
|}.

Definition d0 : db := {| users := [ana; root]; orders := [order1] |}.

(** A request of the administrator [root]. *)
Definition as_admin (target : string) (b : list (string * jsval)) : request :=
  {| param := target; body := obj b;
     userId := JStr "424242424242424242424242"; isAdmin := JBool true;
     thisEmail := JStr "admin@bq.com" |}.

(** A request of the waiter [ana]. *)
Definition as_ana (target : string) (b : list (string * jsval)) : request :=
  {| param := target; body := obj b;
     userId := JStr "414141414141414141414141"; isAdmin := JBool false;
     thisEmail := JStr "ana@bq.com" |}.

End Sample.
Export Sample.

(** ** The other order routes of [src/routes/users.js] *)

Module OrderRoutes.

Local Open Scope js_scope.

(** What the driver stores for a property of an inserted object: an
    [undefined] value is written as [null]. *)
Definition to_bson (v : jsval) : jsval :=
  if is_undefined v then JNull else v.

(** [v.length === 0] for a truthy [v]: the number of elements of an
    array, the length of a string, the [length] property of an object;
    numbers and booleans have no [length]. *)
Definition length_is_zero (v : jsval) : bool :=
  match v with
  | JArr items => match items with [] => true | _ => false end
  | JStr s => (s =? "")%string
  | JObj props => strict_eq (assoc "length" props) (JNum 0)
  | _ => false
  end.

(** The whole document as JSON, for [resp.json(order.value)]. *)
Definition document_json (o : document) : jsval :=
  json (("_id", JStr (toHexString (_id o))) :: map_to_list (fields o)).

(** [GET /orders/:orderId].  The [id] of the answer is read from
    [order.insertedId]. *)
Definition get_orders_orderId (req : request) : M response :=
  let orderId := param req in
  connect ;;
  order <- (if hex24 orderId then
              _id <- lift_option BSONError (new_ObjectId orderId) ;;
              findOne Orders (ById _id)
            else ret None) ;;
  match order with
  | Some o =>
      close ;;
      products <- products_map (prop (fields o) "products") ;;
      ret (Json 200
             (json [("id", prop (fields o) "insertedId");
                    ("userId", prop (fields o) "userId");
                    ("client", prop (fields o) "client");
                    ("products", products);
                    ("status", prop (fields o) "status");
                    ("dateEntry", prop (fields o) "dateEntry");
                    ("dateProcessed", prop (fields o) "dateProcessed")]))
  | None => close ;; ret (Json 404 (error "Producto no encontrado"))
  end.

(** The order that [POST /orders] builds; [entry] and [processed] are
    what the two calls of [new Date()] give. *)
Definition newOrder (req : request) (entry processed : jsval)
  : gmap string jsval :=
  <["userId" := to_bson (prop (body req) "userId")]>
    (<["client" := to_bson (prop (body req) "client")]>
       (<["products" := to_bson (prop (body req) "products")]>
          (<["status" := JStr "pending"]>
             (<["dateEntry" := entry]>
                (<["dateProcessed" := processed]> ∅))))).

(** [POST /orders].  The [finally] block closes the client on both
    ways out of the [try]. *)
Definition post_orders (E : Env) (entry processed : jsval) (req : request)
  : M response :=
  let userId := prop (body req) "userId" in
  let client := prop (body req) "client" in
  let products := prop (body req) "products" in
  if negb (truthy userId) || negb (truthy products)
     || length_is_zero products then
    ret (Json 400
           (error "Se requiere userId y productos para crear una orden"))
  else
    answer <- try_catch
      (connect ;;
       insertedId <- insertOne E Orders (newOrder req entry processed) ;;
       shown <- products_map products ;;
       ret (Json 200
              (json [("_id", JStr (toHexString insertedId));
                     ("userId", userId);
                     ("client", client);
                     ("products", shown);
                     ("status", JStr "pending");
                     ("dateEntry", entry);
                     ("dateProcessed", processed)])))
      (fun err => ret (Next (Thrown err))) ;;
    close ;;
    ret answer.

(** [DELETE /orders/:orderId] *)
Definition delete_orders_orderId (req : request) : M response :=
  let orderId := param req in
  connect ;;
  let isAdmin := strict_eq (isAdmin req) (JBool true) in
  if negb isAdmin then
    close ;;
    ret (Json 403
           (error "No tienes autorización para eliminar este producto"))
  else if hex24 orderId then
    _id <- lift_option BSONError (new_ObjectId orderId) ;;
    order <- findOneAndDelete Orders (ById _id) ;;
    match order with
    | Some o => close ;; ret (Json 200 (document_json o))
    | None => close ;; ret (Json 404 (error "Producto no encontrado"))
    end
  else
    close ;;
    ret (Json 404 (error "Producto no encontrado")).

End OrderRoutes.
Export OrderRoutes.

(** ** The login route of [src/routes/auth.js] *)

Module Auth.

Local Open Scope js_scope.

(** Outside the sources: the comparison of a password with a hash by
    [bcrypt], and the signature of a payload with the configured secret
    by [jsonwebtoken]. *)
Record AuthEnv : Type := {
  bcrypt_compare : string -> string -> bool;
  jwt_sign : jsval -> string
}.

(** [await bcrypt.compare(data, hash)]: fails unless both are strings. *)
Definition compare (A : AuthEnv) (data hash : jsval) : M bool :=
  match data, hash with
  | JStr d, JStr h => ret (bcrypt_compare A d h)
  | _, _ => throw BcryptError
  end.

(** The payload of the token: [{ userId: user._id, rol: user.role,
    email: user.email }]. *)
Definition token_payload (user : document) : jsval :=
  json [("userId", JStr (toHexString (_id user)));
        ("rol", prop (fields user) "role");
        ("email", prop (fields user) "email")].

(** [POST /login].  No path of the handler closes the client. *)
Definition login (A : AuthEnv) (req : request) : M response :=
  let email := prop (body req) "email" in
  let password := prop (body req) "password" in
  if negb (truthy email) || negb (truthy password) then
    ret (Next (Code 400))
  else
    connect ;;
    user <- findOne Users (ByEmail email) ;;
    match user with
    | None => ret (Next (Code 404))
    | Some u =>
        passwordMatch <- compare A password (prop (fields u) "password") ;;
        if negb passwordMatch then ret (Next (Code 400))
        else
          let accessToken := jwt_sign A (token_payload u) in
          ret (Json 200 (json [("accessToken", JStr accessToken)]))
    end.

End Auth.
Export Auth.

(** ** The product routes *)

Module Catalog.

(** The product routes use a third collection and nothing else of the
    database; they run over that collection and a log of their own. *)
Inductive call : Type :=
| PConnect
| PClose
| PFindOne (q : query)
| PInsertOne (doc : gmap string jsval)
| PFindOneAndUpdate (q : query) (set : gmap string jsval)
| PFindOneAndDelete (q : query).

Record shelf : Type := { products : list document; calls : list call }.

Definition P (A : Type) : Type := shelf -> (exn + A) * shelf.

Definition pret {A} (a : A) : P A := fun w => (inr a, w).

Definition pthrow {A} (e : exn) : P A := fun w => (inl e, w).

Definition pbind {A B} (m : P A) (k : A -> P B) : P B :=
  fun w =>
    match m w with
    | (inl e, w') => (inl e, w')
    | (inr a, w') => k a w'
    end.

Definition ptry {A} (m : P A) (h : exn -> P A) : P A :=
  fun w =>
    match m w with
    | (inl e, w') => h e w'
    | (inr a, w') => (inr a, w')
    end.

Definition note (c : call) : P unit :=
  fun w => (inr tt, {| products := products w; calls := calls w ++ [c] |}).

Declare Scope catalog_scope.
Delimit Scope catalog_scope with catalog.
Notation "x <- m ;; k" := (pbind m (fun x => k))
  (at level 100, m at next level, k at level 200, only parsing)
  : catalog_scope.
Notation "m ;; k" := (pbind m (fun _ => k))
  (at level 100, k at level 200, only parsing) : catalog_scope.
Local Open Scope catalog_scope.

Definition pconnect : P unit := note PConnect.
Definition pclose : P unit := note PClose.

Definition pfindOne (q : query) : P (option document) :=
  note (PFindOne q) ;;
  fun w => (inr (List.find (matches q) (products w)), w).

Definition pinsertOne (E : Env) (doc : gmap string jsval) : P ObjectId :=
  note (PInsertOne doc) ;;
  fun w =>
    let id := gen_ObjectId E (products w) in
    (inr id, {| products := products w ++ [{| _id := id; fields := doc |}];
                calls := calls w |}).

Definition pfindOneAndUpdate (E : Env) (q : query) (set : gmap string jsval)
  : P (option document) :=
  note (PFindOneAndUpdate q set) ;;
  fun w =>
    match List.find (matches q) (products w) with
    | None => (inr None, w)
    | Some d =>
        match set !! "_id"%string with
        | Some _ => (inl MongoServerError, w)
        | None =>
            (inr (Some (if honours_returnOriginal E then apply_set set d
                        else d)),
             {| products := update_first q (apply_set set) (products w);
                calls := calls w |})
        end
    end.

Definition pfindOneAndDelete (q : query) : P (option document) :=
  note (PFindOneAndDelete q) ;;
  fun w =>
    match List.find (matches q) (products w) with
    | None => (inr None, w)
    | Some d =>
        (inr (Some d),
         {| products := delete_first q (products w); calls := calls w |})
    end.

Definition new_id (s : string) : P ObjectId :=
  match new_ObjectId s with
  | Some id => pret id
  | None => pthrow BSONError
  end.

(** [typeof v !== 'number'] *)
Definition not_a_number (v : jsval) : bool :=
  match v with JNum _ => false | _ => true end.

(** [GET /products/:productId] *)
Definition get_products_productId (req : request) : P response :=
  let productId := param req in
  pconnect ;;
  product <- (if hex24 productId then
                _id <- new_id productId ;;
                pfindOne (ById _id)
              else pret None) ;;
  match product with
  | Some p =>
      pclose ;;
      pret (Json 200
              (json [("id", JStr (toHexString (_id p)));
                     ("name", prop (fields p) "name");
                     ("price", prop (fields p) "price");
                     ("image", prop (fields p) "image");
                     ("type", prop (fields p) "type");
                     ("dateEntry", prop (fields p) "dateEntry")]))
  | None => pclose ;; pret (Json 404 (error "Producto no encontrado"))
  end.

(** [POST /products]; [entry] is what [new Date()] gives. *)
Definition post_products (E : Env) (entry : jsval) (req : request)
  : P response :=
  let name := prop (body req) "name" in
  let price := prop (body req) "price" in
  let image := prop (body req) "image" in
  let type := prop (body req) "type" in
  if negb (truthy name) || negb (truthy price) then
    pret (Json 400
            (error "Debes proporcionar un nombre y un precio para el producto."))
  else
    pconnect ;;
    let isAdmin := strict_eq (isAdmin req) (JBool true) in
    if negb isAdmin then
      pclose ;;
      pret (Json 403
              (error "No tienes autorización para hacer esta petición"))
    else
      answer <- ptry
        (let product : gmap string jsval :=
           <["name" := to_bson name]>
             (<["price" := to_bson price]>
                (<["image" := to_bson image]>
                   (<["type" := to_bson type]>
                      (<["dateEntry" := entry]> ∅)))) in
         insertedId <- pinsertOne E product ;;
         pret (Json 200
                 (json [("id", JStr (toHexString insertedId));
                        ("name", name);
                        ("price", price);
                        ("image", image);
                        ("type", type);
                        ("dateEntry", entry)])))
        (fun err => pret (Next (Thrown err))) ;;
      pclose ;;
      pret answer.

(** The first test of [PATCH /products/:productId]. *)
Definition product_values_rejected (b : gmap string jsval) : bool :=
  no_keys b || strict_eq (prop b "name") (JStr "")
  || strict_eq (prop b "price") (JStr "")
  || not_a_number (prop b "price")
  || strict_eq (prop b "image") (JStr "")
  || strict_eq (prop b "type") (JStr "").

(** [PATCH /products/:productId] *)
Definition patch_products_productId (E : Env) (req : request) : P response :=
  let productId := param req in
  pconnect ;;
  if product_values_rejected (body req) then
    pclose ;;
    pret (Json 400 (error "Los valores a actualizar no pueden estar vacios"))
  else
    let isAdmin := strict_eq (isAdmin req) (JBool true) in
    if negb isAdmin then
      pclose ;;
      pret (Json 403
              (error "No tienes autorización para modificar este usuario"))
    else if hex24 productId then
      id <- new_id productId ;;
      product <- pfindOneAndUpdate E (ById id) (body req) ;;
      match product with
      | Some p =>
          pclose ;;
          pret (Json 200
                  (json [("id", JStr (toHexString (_id p)));
                         ("name", prop (fields p) "name");
                         ("price", prop (fields p) "price");
                         ("image", prop (fields p) "image");
                         ("type", prop (fields p) "type")]))
      | None => pclose ;; pret (Json 404 (error "Producto no encontrado"))
      end
    else
      pclose ;;
      pret (Json 404 (error "Producto no encontrado")).

(** [DELETE /products/:productId] *)
Definition delete_products_productId (req : request) : P response :=
  let productId := param req in
  pconnect ;;
  let isAdmin := strict_eq (isAdmin req) (JBool true) in
  if negb isAdmin then
    pclose ;;
    pret (Json 403
            (error "No tienes autorización para eliminar este producto"))
  else if hex24 productId then
    _id <- new_id productId ;;
    product <- pfindOneAndDelete (ById _id) ;;
    match product with
    | Some p => pclose ;; pret (Json 200 (document_json p))
    | None => pclose ;; pret (Json 404 (error "Producto no encontrado"))
    end
  else
    pclose ;;
    pret (Json 404 (error "Producto no encontrado")).

(** Running a product handler on a collection, with an empty log. *)
Definition prun {A} (m : P A) (l : list document) : (exn + A) * shelf :=
  m {| products := l; calls := [] |}.

End Catalog.
Export Catalog.

(** ** Notions for the properties of these routes *)

Module Facts.

(** The identifiers of a collection are pairwise different. *)
Definition unique_ids (l : list document) : Prop :=
  NoDup (List.map _id l).

(** The handler opened the client first, closed it last, and did neither
    in between. *)
Definition brackets (l : list event) : Prop :=
  exists mid,
    l = (Connect :: mid ++ [Close])%list
    /\ List.forallb is_store_call mid = true.

(** The client is never closed. *)
Definition left_open (l : list event) : Prop := ~ In Close l.

(** The events that write to a collection. *)
Definition writes (e : event) : bool :=
  match e with
  | InsertOne _ _ | FindOneAndUpdate _ _ _ | FindOneAndDelete _ _ => true
  | _ => false
  end.

(** What [products.map] makes of one product that is an object or a
    primitive. *)
Definition product_view (p : jsval) : jsval :=
  json [("qty", default JUndefined (member p "qty"));
        ("product", default JUndefined (member p "product"))].

(** Neither [null] nor [undefined]: a value whose properties can be
    read. *)
Definition readable (p : jsval) : bool :=
  match member p "qty" with Some _ => true | None => false end.

(** The record that [POST /users] inserts. *)
Definition created_user (E : Env) (d : db) (e : string) (pw : string)
    (role : jsval) : document :=
  {| _id := gen_ObjectId E (users d);
     fields := <["email" := JStr e]>
                 (<["password" := JStr (bcrypt_hash E pw)]>
                    (<["role" := role]> ∅)) |}.

(** The answer is a JSON response with one of the given statuses. *)
Definition answers {S} (r : (exn + response) * S) (codes : list Z) : Prop :=
  exists s p, fst r = inr (Json s p) /\ In s codes.

(** A field name that [$set] takes as the name of a top-level field: not
    empty, without a dot (which would make it a path into nested
    fields), not starting with a dollar sign and without a null
    character (which the server refuses). *)
Definition plain_key (k : string) : bool :=
  negb (k =? "")%string
  && negb (includes "." k)
  && negb (String.prefix "$" k)
  && negb (includes (String Ascii.zero EmptyString) k).

(** A value as a JSON body can carry it and as the server stores it
    unchanged: no [undefined], no function, and in every nested object
    only plain keys. *)
Fixpoint storable (v : jsval) : bool :=
  match v with
  | JUndefined | JFun _ => false
  | JNull | JBool _ | JNum _ | JStr _ => true
  | JArr items => List.forallb storable items
  | JObj props =>
      List.forallb (fun kv => let '(k, x) := kv in plain_key k && storable x)
        props
  end.

(** A body that [{ $set: body }] writes field by field, as [apply_set]
    has it: every key is plain and every value storable. *)
Definition plain_update (b : gmap string jsval) : bool :=
  List.forallb (fun kv => plain_key (fst kv) && storable (snd kv))
    (map_to_list b).

(** The status of a JSON answer. *)
Definition status_of (o : exn + response) : option Z :=
  match o with
  | inr (Json s _) => Some s
  | _ => None
  end.

Definition A0 : AuthEnv := {|
  bcrypt_compare := fun d h => (("$2b$10$" ++ d)%string =? h)%string;
  jwt_sign := fun _ => "token"%string
|}.

End Facts.
Export Facts.

(** ** Proofs *)

(** Running a handler symbolically: unfold the monad and the driver
    calls, then split on the innermost test that blocks evaluation. *)

#[local] Arguments error : simpl never.
#[local] Arguments user_json : simpl never.
#[local] Arguments includes : simpl never.
#[local] Arguments new_ObjectId : simpl never.
#[local] Arguments hex24 : simpl never.
#[local] Arguments strict_eq : simpl never.
#[local] Arguments truthy : simpl never.
#[local] Arguments prop : simpl never.
#[local] Arguments no_keys : simpl never.

Ltac exec :=
  unfold outcome, log_of, db_after, store_calls, run,
    findOne, findOneAndUpdate, findOneAndDelete, insertOne, bcrypt,
    lift_option, try_catch, get_docs, put_docs, connect, close, emit,
    bind, ret, throw;
  simpl.

Ltac split_match :=
  match goal with
  | |- context [match ?x with _ => _ end] =>
      lazymatch x with
      | context [match _ with _ => _ end] => fail
      | _ => destruct x eqn:?; simpl
      end
  end.

Section JsFacts.

Lemma no_keys_empty : no_keys ∅ = true.
Proof. unfold no_keys. apply bool_decide_eq_true. apply map_size_empty. Qed.

Lemma no_keys_false (b : gmap string jsval) : b <> ∅ -> no_keys b = false.
Proof.
  intros Hb. unfold no_keys. apply bool_decide_eq_false.
  intros Hs. apply Hb. now apply map_size_empty_iff.
Qed.

Lemma prop_lookup (b : gmap string jsval) k v : b !! k = Some v -> prop b k = v.
Proof. unfold prop. now intros ->. Qed.

Lemma prop_absent (b : gmap string jsval) k : b !! k = None -> prop b k = JUndefined.
Proof. unfold prop. now intros ->. Qed.

Lemma missing_or_empty_falsy (b : gmap string jsval) k :
  missing_or_empty (b !! k) -> truthy (prop b k) = false.
Proof.
  intros [H | H].
  - now rewrite (prop_absent _ _ H).
  - now rewrite (prop_lookup _ _ _ H).
Qed.

Lemma truthy_not_empty_string v : truthy v = true -> strict_eq v (JStr "") = false.
Proof.
  destruct v as [ | | b | n | s | items | props | name]; try reflexivity.
  unfold truthy, strict_eq. now destruct (s =? "")%string.
Qed.

Lemma strict_eq_JStr_refl s : strict_eq (JStr s) (JStr s) = true.
Proof. unfold strict_eq. apply String.eqb_refl. Qed.

Lemma jsval_eqb_refl : forall v, jsval_eqb v v = true.
Proof.
  fix IH 1.
  intros [ | | b | n | s | items | props | name]; simpl;
    try reflexivity.
  - now destruct b.
  - apply Z.eqb_refl.
  - apply String.eqb_refl.
  - induction items as [ | x rest IHrest]; [ reflexivity | ].
    now rewrite IH, IHrest.
  - induction props as [ | [k x] rest IHrest]; [ reflexivity | ].
    now rewrite String.eqb_refl, IH, IHrest.
  - apply String.eqb_refl.
Qed.

Lemma value_matches_same v : value_matches v (Some v) = true.
Proof. unfold value_matches. now rewrite jsval_eqb_refl. Qed.

Lemma find_of_In {A} (P : A -> bool) (l : list A) (x : A) :
  In x l -> P x = true -> exists y, List.find P l = Some y.
Proof.
  intros Hin HP. destruct (List.find P l) as [y | ] eqn:Hf; [ now exists y | ].
  rewrite (List.find_none P l Hf x Hin) in HP. discriminate HP.
Qed.

End JsFacts.

Section HexFacts.

Lemma hex_digit_not_at c rest :
  is_hex_digit c = true -> String.prefix "@" (String c rest) = false.
Proof.
  destruct c as [[] [] [] [] [] [] [] []]; intros H;
    solve [ discriminate H | reflexivity ].
Qed.

Lemma all_hex_no_at s : all_hex s = true -> includes "@" s = false.
Proof.
  induction s as [ | c rest IH]; [ reflexivity | ].
  simpl. intros H. apply andb_prop in H as [Hc Hrest].
  change (includes "@" (String c rest))
    with (String.prefix "@" (String c rest) || includes "@" rest).
  now rewrite (hex_digit_not_at c rest Hc), (IH Hrest).
Qed.

Lemma hex24_no_at s : hex24 s = true -> includes "@" s = false.
Proof.
  unfold hex24. intros H. apply andb_prop in H as [_ H].
  now apply all_hex_no_at.
Qed.

(** Decoding succeeds on an even number of hexadecimal digits. *)
Lemma fromHex_all_hex s :
  (all_hex s = true -> Nat.even (String.length s) = true ->
   exists bytes, fromHex s = Some bytes)
  /\ (forall c, all_hex (String c s) = true ->
      Nat.even (String.length (String c s)) = true ->
      exists bytes, fromHex (String c s) = Some bytes).
Proof.
  induction s as [ | c' rest [IH0 IH1]].
  - split; [ intros _ _; now exists EmptyString | ].
    intros c _ H. discriminate H.
  - split; [ intros H1 H2; now apply IH1 | ].
    intros c Hhex Hlen.
    simpl in Hhex. apply andb_prop in Hhex as [Hc Hhex].
    apply andb_prop in Hhex as [Hc' Hrest].
    destruct (IH0 Hrest Hlen) as [bytes Hb].
    unfold is_hex_digit in Hc, Hc'.
    simpl. destruct (hex_digit c); [ | discriminate Hc ].
    destruct (hex_digit c'); [ | discriminate Hc' ].
    rewrite Hb. eauto.
Qed.

Lemma new_ObjectId_hex24 s :
  hex24 s = true -> exists id, new_ObjectId s = Some id.
Proof.
  unfold hex24, new_ObjectId. intros H.
  pose proof H as H'. apply andb_prop in H' as [Hlen Hhex].
  apply Nat.eqb_eq in Hlen.
  destruct (proj1 (fromHex_all_hex s) Hhex) as [bytes Hb].
  { now rewrite Hlen. }
  rewrite Hlen. simpl. unfold hex24. rewrite Hlen, Hhex. simpl.
  rewrite Hb. eauto.
Qed.

End HexFacts.

(** *** Updating a user with empty values *)

Lemma patch_users_empty_values_run (E : Env) (req : request) (d : db) :
  empty_values (body req) = true ->
  run (patch_users_uid E req) d
  = (inr (Json 400 (error "Los valores a actualizar no pueden estar vacios")),
     {| store := d; log := [Connect; Close] |}).
Proof.
  unfold empty_values. intros Hc. unfold patch_users_uid. exec.
  now rewrite Hc.
Qed.

(** C4.  An update whose body is empty, or whose [email] or [password]
    is the empty string, is answered 400 with the message on empty
    values, whoever the caller is: the answer does not depend on the
    identity properties of the request, the client is only opened and
    closed, and the database is as it was. *)
Theorem patch_users_empty_values_rejected (E : Env) (req : request) (d : db) :
  body req = ∅ \/ body req !! "email" = Some (JStr "")
  \/ body req !! "password" = Some (JStr "") ->
  run (patch_users_uid E req) d
  = (inr (Json 400 (error "Los valores a actualizar no pueden estar vacios")),
     {| store := d; log := [Connect; Close] |}).
Proof.
  intros H.
  assert (Hc : empty_values (body req) = true).
  { unfold empty_values. destruct H as [H | [H | H]].
    - rewrite H, no_keys_empty. apply orb_true_r.
    - now rewrite (prop_lookup _ _ _ H).
    - rewrite (prop_lookup _ _ _ H), strict_eq_JStr_refl.
      now rewrite orb_true_r. }
  now apply patch_users_empty_values_run.
Qed.

Lemma patch_users_empty_values_rejected_witness :
  run (patch_users_uid E0 (as_ana "admin@bq.com" [])) d0
  = (inr (Json 400 (error "Los valores a actualizar no pueden estar vacios")),
     {| store := d0; log := [Connect; Close] |}).
Proof.
  apply (patch_users_empty_values_rejected E0 (as_ana "admin@bq.com" []) d0).
  left. reflexivity.
Defined.

(** *** Creating a user without a required field *)

(** C6.  A creation in which [email], [password] or [role] is absent or
    is the empty string ends with [next(400)]; the handler has not even
    opened the client, so the log is empty and the database is as it
    was. *)
Theorem post_users_missing_field_rejected (E : Env) (req : request) (d : db) :
  missing_or_empty (body req !! "email")
  \/ missing_or_empty (body req !! "password")
  \/ missing_or_empty (body req !! "role") ->
  run (post_users E req) d = (inr (Next (Code 400)), {| store := d; log := [] |}).
Proof.
  intros H. unfold post_users.
  assert (Hc : negb (truthy (prop (body req) "email"))
               || negb (truthy (prop (body req) "password"))
               || negb (truthy (prop (body req) "role")) = true).
  { destruct H as [H | [H | H]];
      rewrite (missing_or_empty_falsy _ _ H); simpl;
      rewrite ?orb_true_r; reflexivity. }
  rewrite Hc. reflexivity.
Qed.

Lemma post_users_missing_field_rejected_witness :
  run (post_users E0 (as_admin "" [("email", JStr "eva@bq.com");
                                   ("password", JStr ""); ("role", JStr "chef")]))
      d0
  = (inr (Next (Code 400)), {| store := d0; log := [] |}).
Proof.
  apply post_users_missing_field_rejected.
  right. left. right. reflexivity.
Defined.

(** *** Who may read, update or delete a user *)

Section Authorization.

Variable E : Env.

Ltac by_identity req :=
  destruct (strict_eq (userId req) (JStr (param req)));
  destruct (strict_eq (thisEmail req) (JStr (param req)));
  destruct (strict_eq (isAdmin req) (JBool true)); simpl.

Ltac settle_refused :=
  split;
  [ intros [msg H]; try reflexivity; exfalso; revert H;
    repeat split_match; intros H; try discriminate; inversion H
  | intros H; try discriminate; eexists; reflexivity ].

Lemma get_users_refused (req : request) (d : db) :
  refused (get_users_uid req) d <-> self_or_admin req = false.
Proof.
  unfold refused, self_or_admin, get_users_uid. exec.
  change (strict_eq (JStr (param req)) Number) with false.
  by_identity req; settle_refused.
Qed.

Lemma delete_users_refused (req : request) (d : db) :
  refused (delete_users_uid req) d <-> self_or_admin req = false.
Proof.
  unfold refused, self_or_admin, delete_users_uid. exec.
  by_identity req; settle_refused.
Qed.

(** Once the request has passed the checks, an answer is only given after
    a call of [findOneAndUpdate] on the users. *)
Lemma patch_users_update_calls (req : request) (a : bool) (w : world) r :
  fst (patch_users_update E req a w) = inr r ->
  exists q b,
    log (snd (patch_users_update E req a w))
    = (log w ++ [FindOneAndUpdate Users q b; Close])%list.
Proof.
  unfold patch_users_update. exec.
  repeat split_match; intros H; try discriminate;
    rewrite <- ?app_assoc; simpl; eauto.
Qed.

Lemma patch_users_update_not_refused (req : request) (a : bool) (d : db) msg :
  patch_users_update E req a {| store := d; log := [Connect] |}
  <> (inr (Json 403 (error msg)), {| store := d; log := [Connect; Close] |}).
Proof.
  intros H.
  destruct (patch_users_update_calls req a {| store := d; log := [Connect] |}
              (Json 403 (error msg))) as (q & b & Hlog).
  - now rewrite H.
  - rewrite H in Hlog. discriminate Hlog.
Qed.

Lemma patch_users_refused (req : request) (d : db) :
  empty_values (body req) = false ->
  refused (patch_users_uid E req) d
  <-> self_or_admin req = false \/ role_change_refused req = true.
Proof.
  unfold refused, self_or_admin, role_change_refused, empty_values.
  intros He. unfold patch_users_uid. exec. rewrite He.
  by_identity req;
    try (split; [ intros _; now left | intros _; eexists; reflexivity ]);
    destruct (truthy (prop (body req) "role")); simpl;
    try destruct (strict_eq (prop (body req) "role") (isAdmin req)); simpl;
    try (split; [ intros _; now right | intros _; eexists; reflexivity ]);
    (split;
     [ intros [msg H]; exfalso;
       exact (patch_users_update_not_refused req _ d msg H)
     | intros [H | H]; discriminate ]).
Qed.

End Authorization.

(** C1, as amended.  A read or a delete is refused (403, no call on the
    store, database unchanged) exactly when the target is neither
    [req.userId] nor [req.thisEmail] and [req.isAdmin] is not [true].  An
    update whose body passes the test on empty values is refused exactly
    when that holds or when the caller is not an administrator and the
    body carries a truthy [role] that differs from [req.isAdmin]. *)
Theorem user_operations_authorization (E : Env) (req : request) (d : db) :
  (refused (user_handler E Read req) d <-> self_or_admin req = false)
  /\ (refused (user_handler E Delete req) d <-> self_or_admin req = false)
  /\ (empty_values (body req) = false ->
      (refused (user_handler E Update req) d
       <-> self_or_admin req = false \/ role_change_refused req = true)).
Proof.
  split; [ apply get_users_refused | split ].
  - apply delete_users_refused.
  - apply patch_users_refused.
Qed.

Lemma user_operations_authorization_witness :
  refused (user_handler E0 Update
             (as_ana "admin@bq.com" [("password", JStr "secret")])) d0.
Proof.
  apply (user_operations_authorization E0
           (as_ana "admin@bq.com" [("password", JStr "secret")]) d0).
  - reflexivity.
  - left. reflexivity.
Defined.

(** C1, as the specification states it, fails: a stranger who sends an
    update with an empty body is answered 400, not 403. *)
Lemma authorization_as_stated_fails :
  ~ authorization_as_stated E0 Update (as_ana "admin@bq.com" []) d0.
Proof.
  unfold authorization_as_stated. intros [_ Hdeny].
  destruct (Hdeny eq_refl) as [msg H].
  simpl in H.
  rewrite (patch_users_empty_values_run E0 (as_ana "admin@bq.com" []) d0
             eq_refl) in H.
  discriminate H.
Qed.

(** *** Changing a role *)

(** C5, as amended.  An update by a caller who is not an administrator,
    whose body passes the test on empty values and carries a truthy
    [role] that is not identical to [req.isAdmin], is refused: 403, no
    call on the store, database unchanged.  The target may be the
    caller's own record. *)
Theorem patch_users_role_change_refused (E : Env) (req : request) (d : db) :
  empty_values (body req) = false ->
  strict_eq (isAdmin req) (JBool true) = false ->
  truthy (prop (body req) "role") = true ->
  strict_eq (prop (body req) "role") (isAdmin req) = false ->
  refused (patch_users_uid E req) d.
Proof.
  intros He Hadmin Hrole Hne.
  apply (patch_users_refused E req d He). right.
  unfold role_change_refused. now rewrite Hadmin, Hrole, Hne.
Qed.

Lemma patch_users_role_change_refused_witness :
  refused (patch_users_uid E0 (as_ana "ana@bq.com" [("role", JStr "admin")]))
    d0.
Proof.
  apply patch_users_role_change_refused; reflexivity.
Defined.

(** C5, as the specification states it, fails twice.  With a [role] and
    an empty [email] the answer is 400; with a [role] that is the empty
    string the update of the caller's own record goes through. *)
Lemma role_change_as_stated_fails :
  ~ role_change_as_stated E0
      (as_ana "ana@bq.com" [("role", JStr "admin"); ("email", JStr "")]) d0
  /\ ~ role_change_as_stated E0 (as_ana "ana@bq.com" [("role", JStr "")]) d0.
Proof.
  unfold role_change_as_stated. split; intros H.
  - destruct (H eq_refl (ex_intro _ (JStr "admin") eq_refl)) as [msg Hr].
    vm_compute in Hr. discriminate Hr.
  - destruct (H eq_refl (ex_intro _ (JStr "") eq_refl)) as [msg Hr].
    vm_compute in Hr. discriminate Hr.
Qed.

(** *** Creating a user whose email is taken *)

(** C7, as amended.  A creation by an administrator that carries a
    non-empty string as [email] and a truthy [password] and [role], the
    email being that of a stored user, is answered 403 with the message
    that the user exists; the only call on the store is the lookup by
    email, and the database is as it was. *)
Theorem post_users_duplicate_email (E : Env) (req : request) (d : db)
    (e : string) (u : document) :
  strict_eq (isAdmin req) (JBool true) = true ->
  body req !! "email" = Some (JStr e) ->
  e <> "" ->
  truthy (prop (body req) "password") = true ->
  truthy (prop (body req) "role") = true ->
  In u (users d) ->
  fields u !! "email" = Some (JStr e) ->
  run (post_users E req) d
  = (inr (Json 403 (error "Usuario existe ")),
     {| store := d;
        log := [Connect; FindOne Users (ByEmail (JStr e)); Close] |}).
Proof.
  intros Hadmin He Hne Htp Htr Hin Hu.
  destruct (find_of_In (matches (ByEmail (JStr e))) (users d) u Hin)
    as [y Hy].
  { simpl. rewrite Hu. apply value_matches_same. }
  assert (Hte : truthy (JStr e) = true).
  { unfold truthy. apply negb_true_iff. now apply String.eqb_neq. }
  unfold post_users. rewrite (prop_lookup _ _ _ He), Hte, Htp, Htr.
  exec. rewrite Hadmin. simpl. rewrite Hy. now destruct d.
Qed.

Lemma post_users_duplicate_email_witness :
  run (post_users E0 (as_admin "" [("email", JStr "ana@bq.com");
                                   ("password", JStr "pw"); ("role", JStr "chef")]))
      d0
  = (inr (Json 403 (error "Usuario existe ")),
     {| store := d0;
        log := [Connect; FindOne Users (ByEmail (JStr "ana@bq.com")); Close] |}).
Proof.
  apply (post_users_duplicate_email E0 _ d0 "ana@bq.com" ana);
    solve [ reflexivity | discriminate | now left ].
Defined.

(** C7, as the specification states it, fails: without a [password] the
    creation ends with [next(400)] whether or not the email is taken. *)
Lemma duplicate_email_as_stated_fails :
  ~ duplicate_email_as_stated E0
      (as_admin "" [("email", JStr "ana@bq.com"); ("role", JStr "chef")]) d0.
Proof.
  unfold duplicate_email_as_stated. intros H.
  destruct H as [[p Hp] _].
  - reflexivity.
  - exists (JStr "ana@bq.com"), ana.
    split; [ reflexivity | split; [ now left | reflexivity ] ].
  - vm_compute in Hp. discriminate Hp.
Qed.

(** *** Resolving the target of a user operation *)

(** C2.  [GET /users/:uid] never looks a user up by identifier: for an
    administrator and a target of 24 hexadecimal digits that is the
    identifier of a stored user, the answer is 404 and no call is made on
    the store. *)
Theorem get_users_by_id_not_found (req : request) (d : db) (u : document) :
  hex24 (param req) = true ->
  new_ObjectId (param req) = Some (_id u) ->
  In u (users d) ->
  strict_eq (isAdmin req) (JBool true) = true ->
  run (get_users_uid req) d
  = (inr (Json 404 (error "Usuario no encontrado")),
     {| store := d; log := [Connect; Close] |}).
Proof.
  intros Hhex _ _ Hadmin. unfold get_users_uid. exec.
  rewrite Hadmin, orb_true_r. simpl.
  rewrite (hex24_no_at _ Hhex).
  change (strict_eq (JStr (param req)) Number) with false.
  reflexivity.
Qed.

Lemma get_users_by_id_not_found_witness :
  run (get_users_uid (as_admin "414141414141414141414141" [])) d0
  = (inr (Json 404 (error "Usuario no encontrado")),
     {| store := d0; log := [Connect; Close] |}).
Proof.
  apply (get_users_by_id_not_found _ d0 ana);
    solve [ reflexivity | now left ].
Defined.

(** C3.  For an administrator and a target without [@] that
    [new ObjectId] does not accept, the read answers 404 but the delete
    and the update end with the [BSONError] of the constructor: no
    response is sent. *)
Theorem users_unparsable_target_throws (E : Env) (req : request) (d : db) :
  includes "@" (param req) = false ->
  new_ObjectId (param req) = None ->
  strict_eq (isAdmin req) (JBool true) = true ->
  outcome (get_users_uid req) d
  = inr (Json 404 (error "Usuario no encontrado"))
  /\ outcome (delete_users_uid req) d = inl BSONError
  /\ (empty_values (body req) = false ->
      truthy (prop (body req) "password") = false ->
      outcome (patch_users_uid E req) d = inl BSONError).
Proof.
  intros Hat Hid Hadmin. repeat split.
  - unfold get_users_uid. exec. rewrite Hadmin, orb_true_r. simpl.
    rewrite Hat. reflexivity.
  - unfold delete_users_uid. exec. rewrite Hadmin, orb_true_r. simpl.
    rewrite Hat, Hid. reflexivity.
  - unfold empty_values. intros He Hpw.
    unfold patch_users_uid, patch_users_update. exec.
    rewrite He, Hadmin, orb_true_r. simpl.
    rewrite Hpw, Hat, Hid. reflexivity.
Qed.

Lemma users_unparsable_target_throws_witness :
  outcome (delete_users_uid (as_admin "abc" [])) d0 = inl BSONError
  /\ outcome (patch_users_uid E0 (as_admin "abc" [("role", JStr "chef")])) d0
     = inl BSONError.
Proof.
  split.
  - apply (users_unparsable_target_throws E0 (as_admin "abc" []) d0);
      reflexivity.
  - apply (users_unparsable_target_throws E0
             (as_admin "abc" [("role", JStr "chef")]) d0);
      reflexivity.
Defined.

(** *** Provisioning the administrator *)

Section Bootstrap.

Variable E : Env.
Variables e p : string.
Hypothesis e_configured : e <> "".
Hypothesis p_configured : p <> "".

Let cfg : config := {| adminEmail := JStr e; adminPassword := JStr p |}.

Let adminUser : gmap string jsval :=
  <["email" := JStr e]> (<["password" := JStr (bcrypt_hash E p)]>
    (<["role" := JStr "admin"]> ∅)).

Let by_admin_email : query := ByEmail (JStr e).

Lemma truthy_configured s : s <> "" -> truthy (JStr s) = true.
Proof.
  intros Hs. unfold truthy. apply negb_true_iff. now apply String.eqb_neq.
Qed.

Lemma initAdminUser_absent (d : db) :
  List.find (matches by_admin_email) (users d) = None ->
  run (initAdminUser E cfg) d
  = (inr (Next NoArg),
     {| store := {| users := users d
                      ++ [{| _id := gen_ObjectId E (users d);
                             fields := adminUser |}];
                    orders := orders d |};
        log := [Connect; FindOne Users by_admin_email;
                InsertOne Users adminUser; Close] |}).
Proof.
  intros Hfind. unfold initAdminUser, cfg. simpl adminEmail. simpl adminPassword.
  rewrite (truthy_configured e e_configured), (truthy_configured p p_configured).
  exec. unfold by_admin_email in Hfind. rewrite Hfind. reflexivity.
Qed.

Lemma initAdminUser_present (d : db) (u : document) :
  List.find (matches by_admin_email) (users d) = Some u ->
  run (initAdminUser E cfg) d
  = (inr (Next NoArg),
     {| store := d; log := [Connect; FindOne Users by_admin_email; Close] |}).
Proof.
  intros Hfind. unfold initAdminUser, cfg. simpl adminEmail. simpl adminPassword.
  rewrite (truthy_configured e e_configured), (truthy_configured p p_configured).
  exec. unfold by_admin_email in Hfind. rewrite Hfind. now destruct d.
Qed.

Lemma adminUser_matches id :
  matches by_admin_email {| _id := id; fields := adminUser |} = true.
Proof.
  unfold matches, by_admin_email, adminUser. simpl fields.
  rewrite lookup_insert_eq. apply value_matches_same.
Qed.

Lemma filter_of_find_None {A} (P : A -> bool) (l : list A) :
  List.find P l = None -> List.filter P l = [].
Proof.
  induction l as [ | x rest IH]; [ reflexivity | ].
  simpl. destruct (P x); [ discriminate | exact IH ].
Qed.

Lemma filter_of_find_Some {A} (P : A -> bool) (l : list A) (x : A) :
  List.find P l = Some x -> (1 <= List.length (List.filter P l))%nat.
Proof.
  induction l as [ | y rest IH]; [ discriminate | ].
  simpl. destruct (P y); simpl; [ lia | exact IH ].
Qed.

(** One run: afterwards a lookup by the administrator's email finds a
    record, and their number is the larger of one and what it was. *)
Lemma initAdminUser_once (d : db) :
  outcome (initAdminUser E cfg) d = inr (Next NoArg)
  /\ (exists u,
        List.find (matches by_admin_email)
          (users (db_after (initAdminUser E cfg) d)) = Some u)
  /\ count_email e (db_after (initAdminUser E cfg) d)
     = Nat.max 1 (count_email e d).
Proof.
  unfold outcome, db_after, count_email.
  destruct (List.find (matches by_admin_email) (users d)) as [u | ] eqn:Hfind.
  - rewrite (initAdminUser_present d u Hfind). simpl.
    split; [ reflexivity | split; [ eauto | ] ].
    pose proof (filter_of_find_Some _ _ _ Hfind) as Hle.
    unfold by_admin_email in Hle. lia.
  - rewrite (initAdminUser_absent d Hfind). simpl.
    split; [ reflexivity | split ].
    + apply (find_of_In _ _ {| _id := gen_ObjectId E (users d);
                               fields := adminUser |}).
      * apply in_or_app. right. now left.
      * apply adminUser_matches.
    + rewrite List.filter_app, List.length_app.
      fold by_admin_email. rewrite (filter_of_find_None _ _ Hfind).
      cbn [List.filter]. now rewrite adminUser_matches.
Qed.

Lemma initAdminUser_again (d : db) (u : document) :
  List.find (matches by_admin_email) (users d) = Some u ->
  db_after (initAdminUser E cfg) d = d
  /\ List.filter is_insert (log_of (initAdminUser E cfg) d) = []
  /\ outcome (initAdminUser E cfg) d = inr (Next NoArg).
Proof.
  intros Hfind. unfold db_after, log_of, outcome.
  now rewrite (initAdminUser_present d u Hfind).
Qed.

Lemma initAdminUser_twice_aux (d : db) :
  let d1 := db_after (initAdminUser E cfg) d in
  db_after (initAdminUser E cfg) d1 = d1
  /\ List.filter is_insert (log_of (initAdminUser E cfg) d1) = []
  /\ outcome (initAdminUser E cfg) d1 = inr (Next NoArg)
  /\ count_email e (db_after (initAdminUser E cfg) d1)
     = Nat.max 1 (count_email e d).
Proof.
  intros d1. destruct (initAdminUser_once d) as (_ & [u Hu] & Hcount).
  destruct (initAdminUser_again d1 u Hu) as (Hsame & Hlog & Hout).
  repeat split; try assumption. now rewrite Hsame.
Qed.

End Bootstrap.

(** C8, as amended.  With a configured email and password, the second
    of two runs of the provisioning changes nothing, inserts nothing and
    ends with [next()]; the records with the administrator's email are
    then as many as before the first run and at least one, hence exactly
    one whenever there was at most one to begin with. *)
Theorem initAdminUser_twice (E : Env) (e p : string) (d : db) :
  e <> "" -> p <> "" ->
  let cfg := {| adminEmail := JStr e; adminPassword := JStr p |} in
  let d1 := db_after (initAdminUser E cfg) d in
  db_after (initAdminUser E cfg) d1 = d1
  /\ List.filter is_insert (log_of (initAdminUser E cfg) d1) = []
  /\ outcome (initAdminUser E cfg) d1 = inr (Next NoArg)
  /\ count_email e (db_after (initAdminUser E cfg) d1)
     = Nat.max 1 (count_email e d)
  /\ ((count_email e d <= 1)%nat ->
      count_email e (db_after (initAdminUser E cfg) d1) = 1%nat).
Proof.
  intros He Hp cfg d1.
  destruct (initAdminUser_twice_aux E e p He Hp d) as (H1 & H2 & H3 & H4).
  repeat split; try assumption.
  intros Hle. fold cfg d1 in H4. rewrite H4. lia.
Qed.

Lemma initAdminUser_twice_witness :
  let cfg := {| adminEmail := JStr "boss@bq.com"; adminPassword := JStr "pw" |} in
  count_email "boss@bq.com"
    (db_after (initAdminUser E0 cfg) (db_after (initAdminUser E0 cfg) d0))
  = 1%nat.
Proof.
  intros cfg.
  apply (initAdminUser_twice E0 "boss@bq.com" "pw" d0);
    solve [ discriminate | vm_compute; lia ].
Defined.

(** C8, as the specification states it, fails.  Once the waiter has set
    her own email to the administrator's, which [PATCH /users/:uid]
    allows, two records carry that email, and two runs of the
    provisioning leave two. *)
Lemma bootstrap_twice_as_stated_fails :
  ~ bootstrap_twice_as_stated E0 "admin@bq.com" "pw"
      (db_after (patch_users_uid E0
                   (as_ana "ana@bq.com" [("email", JStr "admin@bq.com")])) d0).
Proof.
  unfold bootstrap_twice_as_stated. intros [H _].
  vm_compute in H. discriminate H.
Qed.

(** *** Updating an order *)

Section Orders.

Variable E : Env.

Lemma status_rejected_spec v : status_rejected v = negb (recognized_status v).
Proof.
  destruct v as [ | | b | n | s | items | props | name]; try reflexivity.
  unfold status_rejected, recognized_status, statuses, strict_eq. simpl.
  destruct (s =? "delivered")%string, (s =? "pending")%string,
    (s =? "canceled")%string, (s =? "delivering")%string,
    (s =? "preparing")%string; reflexivity.
Qed.

Lemma map_products_pure items w : snd (map_products items w) = w.
Proof.
  revert w. induction items as [ | x rest IH]; intros w; [ reflexivity | ].
  simpl. unfold product_json. exec.
  destruct (member x "qty"); simpl; [ | reflexivity ].
  destruct (member x "product"); simpl; [ | reflexivity ].
  specialize (IH w). destruct (map_products rest w) as [[err | xs] w'];
    simpl in IH; now subst.
Qed.

Lemma order_json_pure o w : snd (order_json o w) = w.
Proof.
  unfold order_json, products_map. exec.
  destruct (prop (fields o) "products"); simpl; try reflexivity.
  pose proof (map_products_pure items w) as H.
  destruct (map_products items w) as [[err | xs] w']; simpl in H; now subst.
Qed.

Lemma patch_orders_empty_values (req : request) (d : db) :
  order_empty_values (body req) = true ->
  run (patch_orders_orderId E req) d
  = (inr (Json 400 (error "Los valores a actualizar no pueden estar vacios")),
     {| store := d; log := [Connect; Close] |}).
Proof.
  unfold order_empty_values. intros He. unfold patch_orders_orderId. exec.
  now rewrite He.
Qed.

Lemma patch_orders_not_admin (req : request) (d : db) :
  order_empty_values (body req) = false ->
  strict_eq (isAdmin req) (JBool true) = false ->
  run (patch_orders_orderId E req) d
  = (inr (Json 403
            (error "No tienes autorización para modificar este usuario")),
     {| store := d; log := [Connect; Close] |}).
Proof.
  unfold order_empty_values. intros He Hadmin.
  unfold patch_orders_orderId. exec. now rewrite He, Hadmin.
Qed.

Lemma patch_orders_bad_id (req : request) (d : db) :
  order_empty_values (body req) = false ->
  strict_eq (isAdmin req) (JBool true) = true ->
  hex24 (param req) = false ->
  run (patch_orders_orderId E req) d
  = (inr (Json 404 (error "Producto no encontrado")),
     {| store := d; log := [Connect; Close] |}).
Proof.
  unfold order_empty_values. intros He Hadmin Hhex.
  unfold patch_orders_orderId. exec. now rewrite He, Hadmin, Hhex.
Qed.

Lemma patch_orders_bad_status (req : request) (d : db) :
  order_empty_values (body req) = false ->
  strict_eq (isAdmin req) (JBool true) = true ->
  hex24 (param req) = true ->
  recognized_status (prop (body req) "status") = false ->
  run (patch_orders_orderId E req) d
  = (inr (Json 400 (error "El status no es el correcto")),
     {| store := d; log := [Connect; Close] |}).
Proof.
  unfold order_empty_values. intros He Hadmin Hhex Hst.
  unfold patch_orders_orderId. exec.
  now rewrite He, Hadmin, Hhex, status_rejected_spec, Hst.
Qed.

Lemma patch_orders_good_status (req : request) (d : db) :
  order_empty_values (body req) = false ->
  strict_eq (isAdmin req) (JBool true) = true ->
  hex24 (param req) = true ->
  recognized_status (prop (body req) "status") = true ->
  exists id,
    new_ObjectId (param req) = Some id
    /\ List.filter is_update (log_of (patch_orders_orderId E req) d)
       = [FindOneAndUpdate Orders (ById id) (body req)].
Proof.
  unfold order_empty_values. intros He Hadmin Hhex Hst.
  destruct (new_ObjectId_hex24 _ Hhex) as [id Hid].
  exists id. split; [ exact Hid | ].
  unfold patch_orders_orderId. exec.
  rewrite He, Hadmin, Hhex, status_rejected_spec, Hst, Hid. simpl.
  destruct (List.find (matches (ById id)) (orders d)) as [o | ]; simpl;
    [ | reflexivity ].
  destruct (body req !! "_id"); simpl; [ reflexivity | ].
  match goal with
  | |- context [order_json ?o ?w] =>
      pose proof (order_json_pure o w) as Hpure;
      destruct (order_json o w) as [[err | payload] w']
  end; simpl in Hpure; subst; reflexivity.
Qed.

(** Whatever the status, an answer of the status test or of a test before
    it leaves the store alone. *)
Lemma patch_orders_unrecognized (req : request) (d : db) :
  strict_eq (isAdmin req) (JBool true) = true ->
  hex24 (param req) = true ->
  recognized_status (prop (body req) "status") = false ->
  exists msg,
    run (patch_orders_orderId E req) d
    = (inr (Json 400 (error msg)), {| store := d; log := [Connect; Close] |}).
Proof.
  intros Hadmin Hhex Hst.
  destruct (order_empty_values (body req)) eqn:He.
  - eexists. now apply patch_orders_empty_values.
  - eexists. now apply patch_orders_bad_status.
Qed.

End Orders.

(** C9, as amended.  The statuses that the test of
    [PATCH /orders/:orderId] lets through are exactly [pending],
    [canceled], [delivering], [delivered] and [preparing].  For an
    administrator and an order identifier of 24 hexadecimal digits, any
    other status is answered 400 without a call on the store; one of the
    five goes on to [findOneAndUpdate] on that identifier with the body,
    provided the body has passed the test on empty values. *)
Theorem patch_orders_status_validation (E : Env) (req : request) (d : db) :
  strict_eq (isAdmin req) (JBool true) = true ->
  hex24 (param req) = true ->
  (forall v, status_rejected v = negb (recognized_status v))
  /\ (recognized_status (prop (body req) "status") = false ->
      exists msg,
        run (patch_orders_orderId E req) d
        = (inr (Json 400 (error msg)),
           {| store := d; log := [Connect; Close] |}))
  /\ (recognized_status (prop (body req) "status") = true ->
      order_empty_values (body req) = false ->
      exists id,
        new_ObjectId (param req) = Some id
        /\ List.filter is_update (log_of (patch_orders_orderId E req) d)
           = [FindOneAndUpdate Orders (ById id) (body req)]).
Proof.
  intros Hadmin Hhex. split; [ apply status_rejected_spec | split ].
  - intros Hst. now apply patch_orders_unrecognized.
  - intros Hst He. now apply patch_orders_good_status.
Qed.

Lemma patch_orders_status_validation_witness :
  exists id,
    new_ObjectId "444444444444444444444444" = Some id
    /\ List.filter is_update
         (log_of (patch_orders_orderId E0
                    (as_admin "444444444444444444444444"
                       [("status", JStr "preparing")])) d0)
       = [FindOneAndUpdate Orders (ById id)
            (obj [("status", JStr "preparing")])].
Proof.
  apply (patch_orders_status_validation E0
           (as_admin "444444444444444444444444" [("status", JStr "preparing")])
           d0); reflexivity.
Defined.

(** C9, as the specification states it, fails: with a recognized status
    and an empty [client] the answer is 400 and the store is not
    called. *)
Lemma status_validation_as_stated_fails :
  ~ status_validation_as_stated E0
      (as_admin "444444444444444444444444"
         [("status", JStr "pending"); ("client", JStr "")]) d0.
Proof.
  unfold status_validation_as_stated. intros H.
  specialize (H eq_refl eq_refl).
  change (recognized_status _) with true in H. cbv iota in H.
  destruct H as [id H].
  unfold log_of in H.
  rewrite (patch_orders_empty_values E0 _ d0) in H; [ | reflexivity ].
  discriminate H.
Qed.

(** C10, as amended.  An order update whose body has no [status] field
    never reaches the store: the client is only opened and closed, the
    database is as it was, and the answer is 400 when a value is empty or
    the body is, else 403 for a caller who is not an administrator, else
    400 for an identifier of 24 hexadecimal digits and 404 for any other.
    In particular an administrator naming an order by 24 hexadecimal
    digits is answered 400. *)
Theorem patch_orders_missing_status (E : Env) (req : request) (d : db) :
  body req !! "status" = None ->
  (exists msg,
     run (patch_orders_orderId E req) d
     = (inr (Json (if order_empty_values (body req) then 400
                   else if negb (strict_eq (isAdmin req) (JBool true)) then 403
                   else if hex24 (param req) then 400 else 404)
                  (error msg)),
        {| store := d; log := [Connect; Close] |}))
  /\ (strict_eq (isAdmin req) (JBool true) = true ->
      hex24 (param req) = true ->
      exists msg,
        run (patch_orders_orderId E req) d
        = (inr (Json 400 (error msg)),
           {| store := d; log := [Connect; Close] |})).
Proof.
  intros Hst.
  assert (Hrec : recognized_status (prop (body req) "status") = false).
  { now rewrite (prop_absent _ _ Hst). }
  split.
  - destruct (order_empty_values (body req)) eqn:He.
    + eexists. now apply patch_orders_empty_values.
    + destruct (strict_eq (isAdmin req) (JBool true)) eqn:Hadmin; simpl.
      * destruct (hex24 (param req)) eqn:Hhex; eexists.
        -- now apply patch_orders_bad_status.
        -- now apply patch_orders_bad_id.
      * eexists. now apply patch_orders_not_admin.
  - intros Hadmin Hhex. now apply patch_orders_unrecognized.
Qed.

Lemma patch_orders_missing_status_witness :
  exists msg,
    run (patch_orders_orderId E0
           (as_admin "444444444444444444444444" [("client", JStr "Eva")])) d0
    = (inr (Json 400 (error msg)), {| store := d0; log := [Connect; Close] |}).
Proof.
  apply (patch_orders_missing_status E0
           (as_admin "444444444444444444444444" [("client", JStr "Eva")]) d0);
    reflexivity.
Defined.

(** C10, as the specification states it, fails: a caller who is not an
    administrator is answered 403. *)
Lemma missing_status_as_stated_fails :
  ~ missing_status_as_stated E0
      (as_ana "444444444444444444444444" [("client", JStr "Eva")]) d0.
Proof.
  unfold missing_status_as_stated. intros H.
  destruct H as [[p Hp] _].
  - intros Hb. apply (f_equal (fun m => m !! "client")) in Hb.
    discriminate Hb.
  - reflexivity.
  - unfold outcome in Hp.
    rewrite (patch_orders_not_admin E0 _ d0) in Hp; [ | reflexivity .. ].
    discriminate Hp.
Qed.

(** ** Further properties of the routes *)

#[local] Arguments document_json : simpl never.
#[local] Arguments toHexString : simpl never.
#[local] Arguments to_bson : simpl never.
#[local] Arguments length_is_zero : simpl never.

(** *** Identifiers and their hexadecimal form *)

Section HexRoundTrip.

Lemma byte_hex_round_trip c :
  hex_digit (to_hex_digit (N_of_ascii c / 16)) = Some (N_of_ascii c / 16)%N
  /\ hex_digit (to_hex_digit (N_of_ascii c mod 16))
     = Some (N_of_ascii c mod 16)%N
  /\ ascii_of_N (16 * (N_of_ascii c / 16) + N_of_ascii c mod 16) = c.
Proof.
  destruct c as [[] [] [] [] [] [] [] []]; vm_compute; repeat split.
Qed.

Lemma fromHex_hex_of_bytes s : fromHex (hex_of_bytes s) = Some s.
Proof.
  induction s as [ | c rest IH]; [ reflexivity | ].
  destruct (byte_hex_round_trip c) as (Hh & Hl & Hc).
  cbn [hex_of_bytes fromHex]. now rewrite Hh, Hl, IH, Hc.
Qed.

Lemma all_hex_hex_of_bytes s : all_hex (hex_of_bytes s) = true.
Proof.
  induction s as [ | c rest IH]; [ reflexivity | ].
  destruct (byte_hex_round_trip c) as (Hh & Hl & _).
  cbn [hex_of_bytes all_hex]. unfold is_hex_digit. now rewrite Hh, Hl, IH.
Qed.

Lemma length_hex_of_bytes s :
  String.length (hex_of_bytes s) = (2 * String.length s)%nat.
Proof.
  induction s as [ | c rest IH]; [ reflexivity | ].
  cbn [hex_of_bytes String.length]. rewrite IH. lia.
Qed.

Lemma hex24_toHexString id :
  String.length (id_bytes id) = 12%nat -> hex24 (toHexString id) = true.
Proof.
  intros Hlen. unfold hex24, toHexString.
  rewrite length_hex_of_bytes, Hlen, all_hex_hex_of_bytes. reflexivity.
Qed.

Lemma new_ObjectId_toHexString id :
  String.length (id_bytes id) = 12%nat ->
  new_ObjectId (toHexString id) = Some id.
Proof.
  intros Hlen. pose proof (hex24_toHexString id Hlen) as Hhex.
  unfold new_ObjectId. rewrite Hhex.
  unfold toHexString. rewrite length_hex_of_bytes, Hlen. simpl.
  rewrite fromHex_hex_of_bytes. now destruct id.
Qed.

Lemma toHexString_no_at id :
  String.length (id_bytes id) = 12%nat -> includes "@" (toHexString id) = false.
Proof. intros Hlen. apply hex24_no_at. now apply hex24_toHexString. Qed.

End HexRoundTrip.

(** *** Lookups, updates and removals in a collection *)

Section CollectionFacts.

Lemma ObjectId_eqb_eq a b : ObjectId_eqb a b = true <-> a = b.
Proof.
  unfold ObjectId_eqb. destruct a as [x], b as [y]. simpl.
  rewrite String.eqb_eq. split; [ now intros -> | now intros [= ->] ].
Qed.

Lemma ObjectId_eqb_refl a : ObjectId_eqb a a = true.
Proof. now apply ObjectId_eqb_eq. Qed.

Lemma find_by_id (l : list document) (u : document) :
  unique_ids l -> In u l -> List.find (matches (ById (_id u))) l = Some u.
Proof.
  unfold unique_ids. induction l as [ | d rest IH]; [ intros _ [] | ].
  simpl. intros Hnd Hin. inversion Hnd as [ | x xs Hnotin Hrest]; subst.
  destruct Hin as [-> | Hin].
  - now rewrite ObjectId_eqb_refl.
  - destruct (ObjectId_eqb (_id u) (_id d)) eqn:Heq.
    + apply ObjectId_eqb_eq in Heq. exfalso. apply Hnotin.
      apply list_elem_of_In. rewrite <- Heq. now apply List.in_map.
    + now apply IH.
Qed.

Lemma find_by_id_absent (l : list document) (id : ObjectId) :
  (forall v, In v l -> _id v <> id) ->
  List.find (matches (ById id)) l = None.
Proof.
  induction l as [ | d rest IH]; [ reflexivity | ].
  intros H. simpl. destruct (ObjectId_eqb id (_id d)) eqn:Heq.
  - apply ObjectId_eqb_eq in Heq. exfalso. apply (H d); [ now left | easy ].
  - apply IH. intros v Hv. apply H. now right.
Qed.

Lemma find_app_fresh (q : query) (l : list document) (x : document) :
  List.find (matches q) l = None -> matches q x = true ->
  List.find (matches q) (l ++ [x]) = Some x.
Proof.
  induction l as [ | d rest IH]; simpl.
  - now intros _ ->.
  - destruct (matches q d); [ discriminate | exact IH ].
Qed.

Lemma delete_first_by_id_gone (l : list document) (id : ObjectId) :
  unique_ids l ->
  forall v, In v (delete_first (ById id) l) -> _id v <> id.
Proof.
  unfold unique_ids. induction l as [ | d rest IH]; [ intros _ v [] | ].
  simpl. intros Hnd v. inversion Hnd as [ | x xs Hnotin Hrest]; subst.
  destruct (ObjectId_eqb id (_id d)) eqn:Heq.
  - apply ObjectId_eqb_eq in Heq. subst id. intros Hin Hv.
    apply Hnotin. apply list_elem_of_In. rewrite <- Hv.
    now apply List.in_map.
  - intros [<- | Hin].
    + intros Hv. rewrite Hv, ObjectId_eqb_refl in Heq. discriminate Heq.
    + now apply IH.
Qed.

Lemma delete_first_length (q : query) (l : list document) (u : document) :
  List.find (matches q) l = Some u ->
  S (List.length (delete_first q l)) = List.length l.
Proof.
  induction l as [ | d rest IH]; [ discriminate | ].
  simpl. destruct (matches q d); [ reflexivity | ].
  intros H. simpl. now rewrite (IH H).
Qed.

Lemma update_first_ids (q : query) (b : gmap string jsval)
    (l : list document) :
  List.map _id (update_first q (apply_set b) l) = List.map _id l.
Proof.
  induction l as [ | d rest IH]; [ reflexivity | ].
  simpl. destruct (matches q d); simpl; [ reflexivity | now rewrite IH ].
Qed.

Lemma update_first_In (q : query) (f : document -> document)
    (l : list document) (u : document) :
  List.find (matches q) l = Some u -> In (f u) (update_first q f l).
Proof.
  induction l as [ | d rest IH]; [ discriminate | ].
  simpl. destruct (matches q d).
  - intros [= ->]. now left.
  - intros H. right. now apply IH.
Qed.

End CollectionFacts.

(** *** Creating a user, then reading it *)

Section UserCreation.

Variable E : Env.
Variable req : request.
Variable d : db.
Variables e pw : string.
Variable role : jsval.

Hypothesis is_admin : strict_eq (isAdmin req) (JBool true) = true.
Hypothesis has_email : body req !! "email" = Some (JStr e).
Hypothesis email_not_empty : e <> "".
Hypothesis has_password : body req !! "password" = Some (JStr pw).
Hypothesis password_not_empty : pw <> "".
Hypothesis has_role : body req !! "role" = Some role.
Hypothesis role_truthy : truthy role = true.
Hypothesis email_free :
  forall u, In u (users d) -> matches (ByEmail (JStr e)) u = false.

Lemma find_none_of_all {A} (P : A -> bool) (l : list A) :
  (forall x, In x l -> P x = false) -> List.find P l = None.
Proof.
  induction l as [ | x rest IH]; [ reflexivity | ].
  intros H. simpl. rewrite (H x (or_introl eq_refl)).
  apply IH. intros y Hy. apply H. now right.
Qed.

Lemma truthy_defined v : truthy v = true -> is_undefined v = false.
Proof. now destruct v. Qed.

Lemma post_users_created_run :
  run (post_users E req) d
  = (inr (Json 200
            (json [("id", JStr (toHexString (gen_ObjectId E (users d))));
                   ("email", JStr e); ("role", role)])),
     {| store := {| users := users d ++ [created_user E d e pw role];
                    orders := orders d |};
        log := [Connect; FindOne Users (ByEmail (JStr e));
                InsertOne Users (fields (created_user E d e pw role));
                Close] |}).
Proof.
  unfold post_users.
  rewrite (prop_lookup _ _ _ has_email), (prop_lookup _ _ _ has_password),
    (prop_lookup _ _ _ has_role).
  rewrite (truthy_configured e email_not_empty),
    (truthy_configured pw password_not_empty), role_truthy.
  exec. rewrite is_admin. simpl.
  now rewrite (find_none_of_all _ _ email_free).
Qed.

Lemma created_user_matches :
  matches (ByEmail (JStr e)) (created_user E d e pw role) = true.
Proof.
  unfold matches, created_user. simpl fields.
  rewrite lookup_insert_eq. apply value_matches_same.
Qed.

Lemma created_user_json :
  user_json (created_user E d e pw role)
  = json [("id", JStr (toHexString (gen_ObjectId E (users d))));
          ("email", JStr e); ("role", role)].
Proof.
  unfold user_json, created_user, prop. simpl fields. simpl _id.
  rewrite lookup_insert_eq.
  rewrite lookup_insert_ne by discriminate.
  rewrite lookup_insert_ne by discriminate.
  now rewrite lookup_insert_eq.
Qed.

Lemma get_created_user_run (req' : request) :
  param req' = e ->
  includes "@" e = true ->
  self_or_admin req' = true ->
  outcome (get_users_uid req') (db_after (post_users E req) d)
  = outcome (post_users E req) d.
Proof.
  intros Hparam Hat Hauth.
  unfold outcome at 2, db_after. rewrite post_users_created_run. simpl.
  unfold get_users_uid. rewrite Hparam. exec.
  unfold self_or_admin in Hauth. rewrite Hparam in Hauth.
  assert (Hok : strict_eq (userId req') (JStr e)
                || strict_eq (isAdmin req') (JBool true)
                || strict_eq (thisEmail req') (JStr e) = true).
  { revert Hauth.
    destruct (strict_eq (userId req') (JStr e)),
      (strict_eq (isAdmin req') (JBool true)),
      (strict_eq (thisEmail req') (JStr e)); simpl; congruence. }
  rewrite Hok, Hat. simpl.
  rewrite (find_app_fresh _ _ _ (find_none_of_all _ _ email_free)
             created_user_matches).
  simpl. now rewrite created_user_json.
Qed.

End UserCreation.





(** X3.  A creation by an administrator whose email is a non-empty
    string and whose password is truthy but not a string, the email
    being free, ends with the error of [bcrypt.hashSync]: no response,
    nothing inserted, the client left open after the lookup. *)
Theorem post_users_password_not_a_string (E : Env) (req : request) (d : db)
    (e : string) :
  strict_eq (isAdmin req) (JBool true) = true ->
  body req !! "email" = Some (JStr e) -> e <> "" ->
  truthy (prop (body req) "password") = true ->
  (forall s, prop (body req) "password" <> JStr s) ->
  truthy (prop (body req) "role") = true ->
  (forall u, In u (users d) -> matches (ByEmail (JStr e)) u = false) ->
  run (post_users E req) d
  = (inl BcryptError,
     {| store := d; log := [Connect; FindOne Users (ByEmail (JStr e))] |}).
Proof.
  intros Hadmin He Hne Hp Hns Hr Hfree. unfold post_users.
  rewrite (prop_lookup _ _ _ He), (truthy_configured e Hne), Hp, Hr.
  exec. rewrite Hadmin. simpl.
  rewrite (find_none_of_all _ _ Hfree).
  destruct (prop (body req) "password") as [ | | b | n | s | l | l | f ] eqn:Hpw;
    try reflexivity.
  now destruct (Hns s).
Qed.

Lemma post_users_password_not_a_string_witness :
  outcome (post_users E0 (as_admin "" [("email", JStr "eva@bq.com");
                                       ("password", JNum 1234);
                                       ("role", JStr "chef")])) d0
  = inl BcryptError.
Proof.
  unfold outcome.
  rewrite (post_users_password_not_a_string E0 _ d0 "eva@bq.com");
    try reflexivity; try discriminate.
  intros u [<- | [<- | []]]; reflexivity.
Defined.

(** *** Updating and deleting a user *)

Section UserUpdate.

Variable E : Env.

Lemma patch_users_update_ids (req : request) (a : bool) (w : world) :
  List.map _id (users (store (snd (patch_users_update E req a w))))
  = List.map _id (users (store w))
  /\ orders (store (snd (patch_users_update E req a w))) = orders (store w).
Proof.
  unfold patch_users_update. exec.
  repeat split_match; simpl; split; try reflexivity; apply update_first_ids.
Qed.

Lemma patch_users_ids (req : request) (d : db) :
  List.map _id (users (db_after (patch_users_uid E req) d))
  = List.map _id (users d)
  /\ orders (db_after (patch_users_uid E req) d) = orders d.
Proof.
  unfold db_after, run, patch_users_uid.
  unfold connect, close, emit, bind, ret. simpl.
  repeat match goal with
         | |- context [if ?c then _ else _] =>
             lazymatch c with
             | context [if _ then _ else _] => fail
             | _ => destruct c; simpl
             end
         end; try (split; reflexivity).
  apply (patch_users_update_ids req _ {| store := d; log := [Connect] |}).
Qed.

End UserUpdate.

(** X4.  Whatever the request, an update of a user neither adds nor
    removes a record nor changes an identifier, and leaves the orders
    alone. *)
Theorem patch_users_keeps_identifiers (E : Env) (req : request) (d : db) :
  List.map _id (users (db_after (patch_users_uid E req) d))
  = List.map _id (users d)
  /\ orders (db_after (patch_users_uid E req) d) = orders d.
Proof. apply patch_users_ids. Qed.



Section UserDeletion.

Lemma delete_users_found_run (req : request) (d : db) (q : query)
    (u : document) :
  self_or_admin req = true ->
  (if includes "@" (param req) then q = ByEmail (JStr (param req))
   else exists id, new_ObjectId (param req) = Some id /\ q = ById id) ->
  List.find (matches q) (users d) = Some u ->
  run (delete_users_uid req) d
  = (inr (Json 200 (user_json u)),
     {| store := {| users := delete_first q (users d); orders := orders d |};
        log := [Connect; FindOneAndDelete Users q; Close] |}).
Proof.
  intros Hauth Hq Hfind. unfold delete_users_uid. exec.
  assert (Hok : strict_eq (userId req) (JStr (param req))
                || strict_eq (isAdmin req) (JBool true)
                || strict_eq (thisEmail req) (JStr (param req)) = true).
  { revert Hauth. unfold self_or_admin.
    destruct (strict_eq (userId req) (JStr (param req))),
      (strict_eq (isAdmin req) (JBool true)),
      (strict_eq (thisEmail req) (JStr (param req))); simpl; congruence. }
  rewrite Hok. simpl.
  destruct (includes "@" (param req)).
  - subst q. simpl. now rewrite Hfind.
  - destruct Hq as (id & Hid & ->). rewrite Hid. simpl. now rewrite Hfind.
Qed.

Lemma delete_users_effect (req : request) (d : db) :
  orders (db_after (delete_users_uid req) d) = orders d
  /\ (status_of (outcome (delete_users_uid req) d) = Some 200 ->
      S (List.length (users (db_after (delete_users_uid req) d)))
      = List.length (users d))
  /\ (status_of (outcome (delete_users_uid req) d) <> Some 200 ->
      users (db_after (delete_users_uid req) d) = users d).
Proof.
  unfold delete_users_uid. exec.
  repeat split_match; simpl; repeat split; intros; try reflexivity;
    try discriminate; try congruence.
  all: eapply delete_first_length; eassumption.
Qed.

End UserDeletion.

(** X6.  An administrator who deletes by the 24 hexadecimal digits of
    the identifier of a stored user, identifiers being pairwise
    different, is answered 200 with that user; the record is removed, no
    record with that identifier remains, and one record less is
    stored. *)
Theorem delete_users_by_identifier (req : request) (d : db) (u : document) :
  strict_eq (isAdmin req) (JBool true) = true ->
  unique_ids (users d) ->
  In u (users d) ->
  String.length (id_bytes (_id u)) = 12%nat ->
  param req = toHexString (_id u) ->
  outcome (delete_users_uid req) d = inr (Json 200 (user_json u))
  /\ users (db_after (delete_users_uid req) d)
     = delete_first (ById (_id u)) (users d)
  /\ (forall v, In v (users (db_after (delete_users_uid req) d)) ->
      _id v <> _id u)
  /\ S (List.length (users (db_after (delete_users_uid req) d)))
     = List.length (users d).
Proof.
  intros Hadmin Huniq Hin Hlen Hparam.
  pose proof (find_by_id _ _ Huniq Hin) as Hfind.
  assert (Hrun := delete_users_found_run req d (ById (_id u)) u).
  rewrite Hparam, (toHexString_no_at _ Hlen) in Hrun.
  unfold outcome, db_after. rewrite Hrun; simpl.
  - split; [ reflexivity | split; [ reflexivity | split ] ].
    + now apply delete_first_by_id_gone.
    + now apply (delete_first_length _ _ u).
  - unfold self_or_admin. now rewrite Hadmin, orb_true_r.
  - exists (_id u). split; [ now apply new_ObjectId_toHexString | reflexivity ].
  - exact Hfind.
Qed.

Lemma delete_users_by_identifier_witness :
  outcome (delete_users_uid (as_admin "414141414141414141414141" [])) d0
  = inr (Json 200 (user_json ana)).
Proof.
  apply (delete_users_by_identifier
           (as_admin "414141414141414141414141" []) d0 ana);
    try reflexivity.
  - unfold unique_ids. simpl.
    apply NoDup_cons_2; [ | apply NoDup_cons_2; [ | apply NoDup_nil_2 ] ];
      intros H; apply list_elem_of_In in H.
    + destruct H as [H | []]. discriminate H.
    + destruct H.
  - now left.
Defined.

(** X7.  A delete of a user leaves the orders alone and removes a record
    exactly when it answers 200: then one record less is stored, and
    otherwise the users are as they were. *)
Theorem delete_users_removes_on_200 (req : request) (d : db) :
  orders (db_after (delete_users_uid req) d) = orders d
  /\ (status_of (outcome (delete_users_uid req) d) = Some 200 ->
      S (List.length (users (db_after (delete_users_uid req) d)))
      = List.length (users d))
  /\ (status_of (outcome (delete_users_uid req) d) <> Some 200 ->
      users (db_after (delete_users_uid req) d) = users d).
Proof. apply delete_users_effect. Qed.

Lemma delete_users_removes_on_200_witness :
  S (List.length (users (db_after
       (delete_users_uid (as_ana "ana@bq.com" [])) d0)))
  = List.length (users d0).
Proof.
  apply (delete_users_removes_on_200 (as_ana "ana@bq.com" []) d0).
  reflexivity.
Defined.

(** *** Opening and closing the client *)

Ltac show_brackets :=
  unfold brackets;
  first [ exists []; split; reflexivity
        | eexists [_]; split; reflexivity
        | eexists [_; _]; split; reflexivity ].

Ltac show_left_open :=
  unfold left_open; simpl; intuition discriminate.

Ltac settle_client :=
  repeat split_match;
  (split;
   [ intros ? ? Hout; try discriminate Hout; show_brackets
   | intros ? Hout; try discriminate Hout; show_left_open ]).

Section Client.

Variable E : Env.

Lemma get_users_client (req : request) (d : db) :
  (forall s p, outcome (get_users_uid req) d = inr (Json s p) ->
               brackets (log_of (get_users_uid req) d))
  /\ (forall e, outcome (get_users_uid req) d = inl e ->
                left_open (log_of (get_users_uid req) d)).
Proof.
  unfold get_users_uid. exec.
  change (strict_eq (JStr (param req)) Number) with false.
  settle_client.
Qed.

Lemma post_users_client (req : request) (d : db) :
  (forall s p, outcome (post_users E req) d = inr (Json s p) ->
               brackets (log_of (post_users E req) d))
  /\ (forall e, outcome (post_users E req) d = inl e ->
                left_open (log_of (post_users E req) d)).
Proof. unfold post_users. exec. settle_client. Qed.

Lemma patch_users_client (req : request) (d : db) :
  (forall s p, outcome (patch_users_uid E req) d = inr (Json s p) ->
               brackets (log_of (patch_users_uid E req) d))
  /\ (forall e, outcome (patch_users_uid E req) d = inl e ->
                left_open (log_of (patch_users_uid E req) d)).
Proof. unfold patch_users_uid, patch_users_update. exec. settle_client. Qed.

Lemma delete_users_client (req : request) (d : db) :
  (forall s p, outcome (delete_users_uid req) d = inr (Json s p) ->
               brackets (log_of (delete_users_uid req) d))
  /\ (forall e, outcome (delete_users_uid req) d = inl e ->
                left_open (log_of (delete_users_uid req) d)).
Proof. unfold delete_users_uid. exec. settle_client. Qed.

End Client.

(** X8.  In the four routes on users, a JSON answer is only given after
    the client was opened first and closed last, with nothing but calls
    on the collection in between; but when the handler ends with an
    exception, the client it opened is never closed. *)
Theorem users_routes_client (E : Env) (op : user_op) (req : request) (d : db) :
  ((forall s p, outcome (user_handler E op req) d = inr (Json s p) ->
                brackets (log_of (user_handler E op req) d))
   /\ (forall e, outcome (user_handler E op req) d = inl e ->
                 left_open (log_of (user_handler E op req) d)))
  /\ ((forall s p, outcome (post_users E req) d = inr (Json s p) ->
                   brackets (log_of (post_users E req) d))
      /\ (forall e, outcome (post_users E req) d = inl e ->
                    left_open (log_of (post_users E req) d))).
Proof.
  split; [ destruct op | apply post_users_client ].
  - apply get_users_client.
  - apply patch_users_client.
  - apply delete_users_client.
Qed.

Lemma users_routes_client_witness :
  left_open (log_of (user_handler E0 Delete (as_admin "abc" [])) d0).
Proof.
  apply (proj2 (proj1 (users_routes_client E0 Delete (as_admin "abc" []) d0))
           BSONError).
  reflexivity.
Defined.

(** *** Creating, reading and deleting an order *)

#[local] Arguments product_view : simpl never.
#[local] Arguments newOrder : simpl never.

Lemma products_map_pure v w : snd (products_map v w) = w.
Proof.
  unfold products_map. exec.
  destruct v as [ | | b | n | s | items | props | name]; simpl;
    try reflexivity.
  pose proof (map_products_pure items w) as H.
  destruct (map_products items w) as [[err | xs] w']; simpl in H; now subst.
Qed.

Lemma map_products_error items w e :
  fst (map_products items w) = inl e -> e = TypeError.
Proof.
  revert w. induction items as [ | x rest IH]; intros w; [ discriminate | ].
  simpl. unfold product_json. exec.
  destruct (member x "qty"); simpl; [ | congruence ].
  destruct (member x "product"); simpl; [ | congruence ].
  specialize (IH w). destruct (map_products rest w) as [[err | xs] w'];
    simpl in *; [ exact IH | discriminate ].
Qed.

Lemma products_map_error v w e :
  fst (products_map v w) = inl e -> e = TypeError.
Proof.
  unfold products_map. exec.
  destruct v as [ | | b | n | s | items | props | name]; simpl;
    try congruence.
  pose proof (map_products_error items w e) as H.
  destruct (map_products items w) as [[err | xs] w']; simpl in *;
    [ | discriminate ].
  intros [= <-]. now apply H.
Qed.

Ltac pure_step :=
  match goal with
  | |- context [products_map ?v ?w] =>
      let H := fresh "Hpure" in
      pose proof (products_map_pure v w) as H;
      destruct (products_map v w) as [[? | ?] ?]; simpl in H; subst; simpl
  | |- context [order_json ?o ?w] =>
      let H := fresh "Hpure" in
      pose proof (order_json_pure o w) as H;
      destruct (order_json o w) as [[? | ?] ?]; simpl in H; subst; simpl
  end.

Section OrderFacts.

Variable E : Env.

Lemma readable_members p :
  readable p = true ->
  exists q r, member p "qty" = Some q /\ member p "product" = Some r.
Proof.
  unfold readable.
  destruct p as [ | | b | n | s | items | props | name]; simpl;
    try discriminate; eauto.
Qed.

Lemma map_products_readable items w :
  List.forallb readable items = true ->
  map_products items w = (inr (List.map product_view items), w).
Proof.
  induction items as [ | p rest IH]; [ reflexivity | ].
  simpl. intros H. apply andb_prop in H as [Hp Hrest].
  destruct (readable_members p Hp) as (q & r & Hq & Hr).
  unfold product_json. exec. rewrite Hq, Hr. simpl.
  rewrite (IH Hrest). simpl. unfold product_view. now rewrite Hq, Hr.
Qed.

Lemma newOrder_props (req : request) (entry processed : jsval) :
  let o := newOrder req entry processed in
  prop o "userId" = to_bson (prop (body req) "userId")
  /\ prop o "client" = to_bson (prop (body req) "client")
  /\ prop o "products" = to_bson (prop (body req) "products")
  /\ prop o "status" = JStr "pending"
  /\ prop o "dateEntry" = entry
  /\ prop o "dateProcessed" = processed
  /\ prop o "insertedId" = JUndefined.
Proof.
  unfold newOrder, prop. repeat split;
    repeat (rewrite lookup_insert_ne by discriminate);
    rewrite ?lookup_insert_eq, ?lookup_empty; reflexivity.
Qed.

Lemma to_bson_truthy v : truthy v = true -> to_bson v = v.
Proof. unfold to_bson. intros H. now rewrite (truthy_defined v H). Qed.

Lemma post_orders_created_run (entry processed : jsval) (req : request)
    (d : db) (items : list jsval) :
  truthy (prop (body req) "userId") = true ->
  prop (body req) "products" = JArr items ->
  items <> [] ->
  List.forallb readable items = true ->
  run (post_orders E entry processed req) d
  = (inr (Json 200
            (json [("_id", JStr (toHexString (gen_ObjectId E (orders d))));
                   ("userId", prop (body req) "userId");
                   ("client", prop (body req) "client");
                   ("products", JArr (List.map product_view items));
                   ("status", JStr "pending");
                   ("dateEntry", entry);
                   ("dateProcessed", processed)])),
     {| store := {| users := users d;
                    orders := orders d
                      ++ [{| _id := gen_ObjectId E (orders d);
                             fields := newOrder req entry processed |}] |};
        log := [Connect; InsertOne Orders (newOrder req entry processed);
                Close] |}).
Proof.
  intros Hu Hp Hne Hread. unfold post_orders. rewrite Hu, Hp.
  assert (Hz : length_is_zero (JArr items) = false).
  { unfold length_is_zero. destruct items; [ now destruct Hne | reflexivity ]. }
  rewrite Hz. change (truthy (JArr items)) with true. simpl.
  exec. unfold products_map. exec.
  rewrite (map_products_readable items _ Hread). reflexivity.
Qed.

Lemma get_orders_found_run (req : request) (d : db) (id : ObjectId)
    (o : document) (items : list jsval) :
  param req = toHexString id ->
  String.length (id_bytes id) = 12%nat ->
  List.find (matches (ById id)) (orders d) = Some o ->
  prop (fields o) "products" = JArr items ->
  List.forallb readable items = true ->
  run (get_orders_orderId req) d
  = (inr (Json 200
            (json [("id", prop (fields o) "insertedId");
                   ("userId", prop (fields o) "userId");
                   ("client", prop (fields o) "client");
                   ("products", JArr (List.map product_view items));
                   ("status", prop (fields o) "status");
                   ("dateEntry", prop (fields o) "dateEntry");
                   ("dateProcessed", prop (fields o) "dateProcessed")])),
     {| store := d; log := [Connect; FindOne Orders (ById id); Close] |}).
Proof.
  intros Hparam Hlen Hfind Hp Hread. unfold get_orders_orderId.
  rewrite Hparam, (hex24_toHexString id Hlen),
    (new_ObjectId_toHexString id Hlen).
  exec. rewrite Hfind. simpl. rewrite Hp. unfold products_map. exec.
  rewrite (map_products_readable items _ Hread). now destruct d.
Qed.

Lemma get_orders_absent_run (req : request) (d : db) :
  (forall id, new_ObjectId (param req) = Some id ->
              List.find (matches (ById id)) (orders d) = None) ->
  run (get_orders_orderId req) d
  = (inr (Json 404 (error "Producto no encontrado")),
     {| store := d;
        log := if hex24 (param req) then
                 match new_ObjectId (param req) with
                 | Some id => [Connect; FindOne Orders (ById id); Close]
                 | None => [Connect]
                 end
               else [Connect; Close] |}).
Proof.
  intros Habsent. unfold get_orders_orderId. exec.
  destruct (hex24 (param req)) eqn:Hhex; [ | reflexivity ].
  destruct (new_ObjectId_hex24 _ Hhex) as [id Hid].
  rewrite Hid. simpl. rewrite (Habsent id Hid). now destruct d.
Qed.

End OrderFacts.

(** X9.  An order without a truthy [userId], without truthy [products]
    or with an empty array of products is answered 400 before the client
    is created: the log is empty and the database as it was. *)
Theorem post_orders_rejects_incomplete (E : Env) (entry processed : jsval)
    (req : request) (d : db) :
  truthy (prop (body req) "userId") = false
  \/ truthy (prop (body req) "products") = false
  \/ prop (body req) "products" = JArr [] ->
  run (post_orders E entry processed req) d
  = (inr (Json 400
            (error "Se requiere userId y productos para crear una orden")),
     {| store := d; log := [] |}).
Proof.
  intros H. unfold post_orders.
  assert (Hc : negb (truthy (prop (body req) "userId"))
               || negb (truthy (prop (body req) "products"))
               || length_is_zero (prop (body req) "products") = true).
  { destruct H as [H | [H | H]]; rewrite H; simpl;
      rewrite ?orb_true_r; reflexivity. }
  now rewrite Hc.
Qed.

Lemma post_orders_rejects_incomplete_witness :
  run (post_orders E0 (JStr "t0") (JStr "t1")
         (as_ana "" [("userId", JStr "414141414141414141414141");
                     ("products", JArr [])])) d0
  = (inr (Json 400
            (error "Se requiere userId y productos para crear una orden")),
     {| store := d0; log := [] |}).
Proof.
  apply post_orders_rejects_incomplete. right. right. reflexivity.
Defined.







Section OrderReadDelete.

Lemma get_orders_read_only (req : request) (d : db) :
  db_after (get_orders_orderId req) d = d
  /\ outcome (get_orders_orderId req) d <> inl BSONError
  /\ List.filter writes (log_of (get_orders_orderId req) d) = [].
Proof.
  unfold get_orders_orderId. exec.
  destruct (hex24 (param req)) eqn:Hhex; simpl.
  - destruct (new_ObjectId_hex24 _ Hhex) as [id ->]. simpl.
    destruct (List.find (matches (ById id)) (orders d)); simpl.
    + match goal with
      | |- context [products_map ?v ?w] =>
          pose proof (products_map_pure v w) as Hpure;
          pose proof (products_map_error v w) as Herr;
          destruct (products_map v w) as [[err | shown] w']
      end; simpl in *; subst.
      * rewrite (Herr err eq_refl).
        repeat split; try reflexivity; try discriminate; now destruct d.
      * repeat split; try reflexivity; try discriminate; now destruct d.
    + repeat split; try reflexivity; try discriminate; now destruct d.
  - repeat split; try reflexivity; try discriminate; now destruct d.
Qed.

Lemma delete_orders_answers (req : request) (d : db) :
  answers (run (delete_orders_orderId req) d) [200; 403; 404]
  /\ brackets (log_of (delete_orders_orderId req) d)
  /\ users (db_after (delete_orders_orderId req) d) = users d.
Proof.
  unfold answers, delete_orders_orderId. exec.
  destruct (strict_eq (isAdmin req) (JBool true)); simpl.
  - destruct (hex24 (param req)) eqn:Hhex; simpl.
    + destruct (new_ObjectId_hex24 _ Hhex) as [id ->]. simpl.
      destruct (List.find (matches (ById id)) (orders d)); simpl;
        (split; [ do 2 eexists; split; [ reflexivity | simpl; tauto ]
                | split; [ show_brackets | reflexivity ] ]).
    + split; [ do 2 eexists; split; [ reflexivity | simpl; tauto ]
             | split; [ show_brackets | reflexivity ] ].
  - split; [ do 2 eexists; split; [ reflexivity | simpl; tauto ]
           | split; [ show_brackets | reflexivity ] ].
Qed.

Lemma delete_orders_found_run (req : request) (d : db) (o : document) :
  strict_eq (isAdmin req) (JBool true) = true ->
  param req = toHexString (_id o) ->
  String.length (id_bytes (_id o)) = 12%nat ->
  List.find (matches (ById (_id o))) (orders d) = Some o ->
  run (delete_orders_orderId req) d
  = (inr (Json 200 (document_json o)),
     {| store := {| users := users d;
                    orders := delete_first (ById (_id o)) (orders d) |};
        log := [Connect; FindOneAndDelete Orders (ById (_id o)); Close] |}).
Proof.
  intros Hadmin Hparam Hlen Hfind. unfold delete_orders_orderId.
  rewrite Hparam, (hex24_toHexString _ Hlen),
    (new_ObjectId_toHexString _ Hlen).
  exec. rewrite Hadmin. simpl. now rewrite Hfind.
Qed.

End OrderReadDelete.

(** X13.  Reading an order never changes the database, never calls a
    writing operation, and never ends with the error of [new ObjectId]:
    the identifier is tested before it is parsed. *)
Theorem get_orders_is_read_only (req : request) (d : db) :
  db_after (get_orders_orderId req) d = d
  /\ outcome (get_orders_orderId req) d <> inl BSONError
  /\ List.filter writes (log_of (get_orders_orderId req) d) = [].
Proof. apply get_orders_read_only. Qed.

(** X14.  Deleting an order always answers, with 200, 403 or 404: the
    handler never ends with an exception, it opens the client first and
    closes it last, and it leaves the users alone. *)
Theorem delete_orders_always_answers (req : request) (d : db) :
  answers (run (delete_orders_orderId req) d) [200; 403; 404]
  /\ brackets (log_of (delete_orders_orderId req) d)
  /\ users (db_after (delete_orders_orderId req) d) = users d.
Proof. apply delete_orders_answers. Qed.

(** X15.  An administrator who deletes a stored order by the hexadecimal
    form of its identifier, identifiers being pairwise different, is
    answered 200 with the whole record; the record is removed, and
    reading the order by the same identifier afterwards answers 404. *)
Theorem delete_orders_then_get (req req' : request) (d : db) (o : document) :
  strict_eq (isAdmin req) (JBool true) = true ->
  unique_ids (orders d) ->
  In o (orders d) ->
  String.length (id_bytes (_id o)) = 12%nat ->
  param req = toHexString (_id o) ->
  param req' = toHexString (_id o) ->
  outcome (delete_orders_orderId req) d = inr (Json 200 (document_json o))
  /\ orders (db_after (delete_orders_orderId req) d)
     = delete_first (ById (_id o)) (orders d)
  /\ outcome (get_orders_orderId req') (db_after (delete_orders_orderId req) d)
     = inr (Json 404 (error "Producto no encontrado")).
Proof.
  intros Hadmin Huniq Hin Hlen Hparam Hparam'.
  pose proof (find_by_id _ _ Huniq Hin) as Hfind.
  unfold outcome, db_after.
  rewrite (delete_orders_found_run req d o Hadmin Hparam Hlen Hfind). simpl.
  split; [ reflexivity | split; [ reflexivity | ] ].
  rewrite get_orders_absent_run; [ reflexivity | ].
  intros id Hid. rewrite Hparam', (new_ObjectId_toHexString _ Hlen) in Hid.
  injection Hid as <-. simpl.
  apply find_by_id_absent. now apply delete_first_by_id_gone.
Qed.

Lemma delete_orders_then_get_witness :
  outcome (get_orders_orderId (as_ana "444444444444444444444444" []))
    (db_after (delete_orders_orderId
                 (as_admin "444444444444444444444444" [])) d0)
  = inr (Json 404 (error "Producto no encontrado")).
Proof.
  apply (delete_orders_then_get (as_admin "444444444444444444444444" [])
           (as_ana "444444444444444444444444" []) d0 order1);
    try reflexivity.
  - unfold unique_ids. simpl.
    apply NoDup_cons_2; [ | apply NoDup_nil_2 ].
    intros H. apply list_elem_of_In in H. destruct H.
  - now left.
Defined.

Section OrderUpdate.

Variable E : Env.

Lemma patch_orders_updated_run (req : request) (d : db) (o : document) :
  strict_eq (isAdmin req) (JBool true) = true ->
  param req = toHexString (_id o) ->
  String.length (id_bytes (_id o)) = 12%nat ->
  List.find (matches (ById (_id o))) (orders d) = Some o ->
  order_empty_values (body req) = false ->
  recognized_status (prop (body req) "status") = true ->
  body req !! "_id" = None ->
  db_after (patch_orders_orderId E req) d
  = {| users := users d;
       orders := update_first (ById (_id o)) (apply_set (body req))
                   (orders d) |}
  /\ log_of (patch_orders_orderId E req) d
     = [Connect; FindOneAndUpdate Orders (ById (_id o)) (body req); Close].
Proof.
  intros Hadmin Hparam Hlen Hfind He Hst Hid.
  unfold order_empty_values in He. unfold patch_orders_orderId.
  exec. rewrite He, Hadmin, status_rejected_spec, Hst. simpl.
  rewrite Hparam, (hex24_toHexString _ Hlen),
    (new_ObjectId_toHexString _ Hlen). simpl.
  rewrite Hfind, Hid. simpl. pure_step; split; reflexivity.
Qed.

End OrderUpdate.



(** *** Each route and its own collection *)

Section Frames.

Variable E : Env.

Ltac frame := exec; repeat (first [ pure_step | split_match ]); reflexivity.

Lemma users_routes_frame (op : user_op) (req : request) (d : db) :
  orders (db_after (user_handler E op req) d) = orders d.
Proof.
  destruct op; simpl.
  - unfold get_users_uid.
    change (strict_eq (JStr (param req)) Number) with false. frame.
  - apply patch_users_ids.
  - unfold delete_users_uid. frame.
Qed.

Lemma post_users_frame (req : request) (d : db) :
  orders (db_after (post_users E req) d) = orders d.
Proof. unfold post_users. frame. Qed.

Lemma initAdminUser_frame (cfg : config) (d : db) :
  orders (db_after (initAdminUser E cfg) d) = orders d.
Proof. unfold initAdminUser. frame. Qed.

Lemma get_orders_frame (req : request) (d : db) :
  users (db_after (get_orders_orderId req) d) = users d.
Proof. now rewrite (proj1 (get_orders_read_only req d)). Qed.

Lemma post_orders_frame (entry processed : jsval) (req : request) (d : db) :
  users (db_after (post_orders E entry processed req) d) = users d.
Proof. unfold post_orders. frame. Qed.

Lemma patch_orders_frame (req : request) (d : db) :
  users (db_after (patch_orders_orderId E req) d) = users d.
Proof. unfold patch_orders_orderId. frame. Qed.

End Frames.

(** X17.  No route on users, nor the provisioning of the administrator,
    changes the orders, and no route on orders changes the users. *)
Theorem routes_keep_to_their_collection (E : Env) (op : user_op)
    (entry processed : jsval) (cfg : config) (req : request) (d : db) :
  orders (db_after (user_handler E op req) d) = orders d
  /\ orders (db_after (post_users E req) d) = orders d
  /\ orders (db_after (initAdminUser E cfg) d) = orders d
  /\ users (db_after (get_orders_orderId req) d) = users d
  /\ users (db_after (post_orders E entry processed req) d) = users d
  /\ users (db_after (patch_orders_orderId E req) d) = users d
  /\ users (db_after (delete_orders_orderId req) d) = users d.
Proof.
  repeat split.
  - apply users_routes_frame.
  - apply post_users_frame.
  - apply initAdminUser_frame.
  - apply get_orders_frame.
  - apply post_orders_frame.
  - apply patch_orders_frame.
  - apply delete_orders_answers.
Qed.

(** *** Logging in *)

Section Login.

Variable A : AuthEnv.

Lemma login_effects (req : request) (d : db) :
  db_after (login A req) d = d
  /\ left_open (log_of (login A req) d)
  /\ List.filter writes (log_of (login A req) d) = [].
Proof.
  unfold login, compare. exec.
  repeat split_match; repeat split; try reflexivity; try show_left_open;
    now destruct d.
Qed.

Lemma login_success_only (req : request) (d : db) (s : Z) (p : jsval) :
  outcome (login A req) d = inr (Json s p) ->
  exists u pw h,
    List.find (matches (ByEmail (prop (body req) "email"))) (users d) = Some u
    /\ prop (body req) "password" = JStr pw
    /\ prop (fields u) "password" = JStr h
    /\ bcrypt_compare A pw h = true
    /\ s = 200
    /\ p = json [("accessToken", JStr (jwt_sign A (token_payload u)))].
Proof.
  unfold login, compare. exec.
  destruct (negb (truthy (prop (body req) "email"))
            || negb (truthy (prop (body req) "password"))); simpl;
    [ discriminate | ].
  destruct (List.find (matches (ByEmail (prop (body req) "email"))) (users d))
    as [u | ] eqn:Hfind; simpl; [ | discriminate ].
  destruct (prop (body req) "password") as [ | | b | n | pw | l | l | f ]
    eqn:Hpw; simpl; try discriminate.
  destruct (prop (fields u) "password") as [ | | b | n | h | l | l | f ]
    eqn:Hh; simpl; try discriminate.
  destruct (bcrypt_compare A pw h) eqn:Hcmp; simpl; [ | discriminate ].
  intros [= <- <-]. exists u, pw, h.
  repeat split; first [ assumption | reflexivity ].
Qed.

Lemma login_run (req : request) (d : db) (e pw h : string) (u : document) :
  body req !! "email" = Some (JStr e) -> e <> "" ->
  body req !! "password" = Some (JStr pw) -> pw <> "" ->
  List.find (matches (ByEmail (JStr e))) (users d) = Some u ->
  fields u !! "password" = Some (JStr h) ->
  outcome (login A req) d
  = if bcrypt_compare A pw h
    then inr (Json 200
                (json [("accessToken", JStr (jwt_sign A (token_payload u)))]))
    else inr (Next (Code 400)).
Proof.
  intros He Hne Hp Hnp Hfind Hh. unfold login, compare.
  rewrite (prop_lookup _ _ _ He), (prop_lookup _ _ _ Hp),
    (truthy_configured e Hne), (truthy_configured pw Hnp).
  exec. rewrite Hfind. simpl. rewrite (prop_lookup _ _ _ Hh). simpl.
  now destruct (bcrypt_compare A pw h).
Qed.

End Login.

(** X18.  Logging in never changes the database and makes no writing
    call; and on no path does the handler close the client it opened. *)
Theorem login_reads_and_leaves_open (A : AuthEnv) (req : request) (d : db) :
  db_after (login A req) d = d
  /\ left_open (log_of (login A req) d)
  /\ List.filter writes (log_of (login A req) d) = [].
Proof. apply login_effects. Qed.

(** X19.  A login whose email is a string is answered with a token only
    if the first stored user with that email has a string as password
    that [bcrypt] accepts for the password of the body; the answer is
    then 200 and the token signs the identifier, the role (under the key
    [rol]) and the email of that user. *)
Theorem login_token_requires_match (A : AuthEnv) (req : request) (d : db)
    (e : string) (s : Z) (p : jsval) :
  prop (body req) "email" = JStr e ->
  outcome (login A req) d = inr (Json s p) ->
  exists u pw h,
    List.find (matches (ByEmail (JStr e))) (users d) = Some u
    /\ prop (body req) "password" = JStr pw
    /\ prop (fields u) "password" = JStr h
    /\ bcrypt_compare A pw h = true
    /\ s = 200
    /\ p = json [("accessToken", JStr (jwt_sign A (token_payload u)))].
Proof.
  intros He Hout. rewrite <- He. now apply login_success_only.
Qed.

Lemma login_token_requires_match_witness :
  exists u pw h,
    List.find (matches (ByEmail (JStr "ana@bq.com"))) (users d0) = Some u
    /\ prop (body (as_ana "" [("email", JStr "ana@bq.com");
                              ("password", JStr "x")])) "password" = JStr pw
    /\ prop (fields u) "password" = JStr h
    /\ bcrypt_compare A0 pw h = true
    /\ 200 = 200
    /\ json [("accessToken", JStr "token")]
       = json [("accessToken", JStr (jwt_sign A0 (token_payload u)))].
Proof.
  apply (login_token_requires_match A0
           (as_ana "" [("email", JStr "ana@bq.com"); ("password", JStr "x")])
           d0 "ana@bq.com" 200 (json [("accessToken", JStr "token")]));
    reflexivity.
Defined.



(** *** The product routes *)

#[local] Arguments not_a_number : simpl never.

Ltac pexec :=
  unfold prun, pfindOne, pinsertOne, pfindOneAndUpdate, pfindOneAndDelete,
    new_id, ptry, pconnect, pclose, note, pbind, pret, pthrow;
  simpl.

Section Products.

Variable E : Env.

Lemma prop_insert_eq (m : gmap string jsval) k v : prop (<[k:=v]> m) k = v.
Proof. unfold prop. now rewrite lookup_insert_eq. Qed.

Lemma prop_insert_ne (m : gmap string jsval) k k' v :
  k <> k' -> prop (<[k:=v]> m) k' = prop m k'.
Proof. intros H. unfold prop. now rewrite lookup_insert_ne. Qed.

Lemma post_products_created_run (entry : jsval) (req : request)
    (l : list document) :
  strict_eq (isAdmin req) (JBool true) = true ->
  truthy (prop (body req) "name") = true ->
  truthy (prop (body req) "price") = true ->
  prun (post_products E entry req) l
  = (inr (Json 200
            (json [("id", JStr (toHexString (gen_ObjectId E l)));
                   ("name", prop (body req) "name");
                   ("price", prop (body req) "price");
                   ("image", prop (body req) "image");
                   ("type", prop (body req) "type");
                   ("dateEntry", entry)])),
     {| products :=
          l ++ [{| _id := gen_ObjectId E l;
                   fields :=
                     <["name" := to_bson (prop (body req) "name")]>
                       (<["price" := to_bson (prop (body req) "price")]>
                          (<["image" := to_bson (prop (body req) "image")]>
                             (<["type" := to_bson (prop (body req) "type")]>
                                (<["dateEntry" := entry]> ∅)))) |}];
        calls :=
          [PConnect;
           PInsertOne
             (<["name" := to_bson (prop (body req) "name")]>
                (<["price" := to_bson (prop (body req) "price")]>
                   (<["image" := to_bson (prop (body req) "image")]>
                      (<["type" := to_bson (prop (body req) "type")]>
                         (<["dateEntry" := entry]> ∅)))));
           PClose] |}).
Proof.
  intros Hadmin Hn Hp. unfold post_products. rewrite Hn, Hp. simpl.
  pexec. now rewrite Hadmin.
Qed.

Lemma get_products_found_run (req : request) (l : list document)
    (id : ObjectId) (p : document) :
  param req = toHexString id ->
  String.length (id_bytes id) = 12%nat ->
  List.find (matches (ById id)) l = Some p ->
  prun (get_products_productId req) l
  = (inr (Json 200
            (json [("id", JStr (toHexString (_id p)));
                   ("name", prop (fields p) "name");
                   ("price", prop (fields p) "price");
                   ("image", prop (fields p) "image");
                   ("type", prop (fields p) "type");
                   ("dateEntry", prop (fields p) "dateEntry")])),
     {| products := l; calls := [PConnect; PFindOne (ById id); PClose] |}).
Proof.
  intros Hparam Hlen Hfind. unfold get_products_productId.
  rewrite Hparam, (hex24_toHexString id Hlen). pexec.
  rewrite (new_ObjectId_toHexString id Hlen). simpl. now rewrite Hfind.
Qed.

Lemma get_products_answers (req : request) (l : list document) :
  answers (prun (get_products_productId req) l) [200; 404]
  /\ products (snd (prun (get_products_productId req) l)) = l
  /\ exists mid,
       calls (snd (prun (get_products_productId req) l))
       = (PConnect :: mid ++ [PClose])%list.
Proof.
  unfold answers, get_products_productId. pexec.
  destruct (hex24 (param req)) eqn:Hhex; simpl.
  - destruct (new_ObjectId_hex24 _ Hhex) as [id ->]. simpl.
    destruct (List.find (matches (ById id)) l); simpl;
      (split; [ do 2 eexists; split; [ reflexivity | simpl; tauto ]
              | split; [ reflexivity | eexists [_]; reflexivity ] ]).
  - split; [ do 2 eexists; split; [ reflexivity | simpl; tauto ]
           | split; [ reflexivity | exists []; reflexivity ] ].
Qed.

Lemma delete_products_answers (req : request) (l : list document) :
  answers (prun (delete_products_productId req) l) [200; 403; 404]
  /\ exists mid,
       calls (snd (prun (delete_products_productId req) l))
       = (PConnect :: mid ++ [PClose])%list.
Proof.
  unfold answers, delete_products_productId. pexec.
  destruct (strict_eq (isAdmin req) (JBool true)); simpl.
  - destruct (hex24 (param req)) eqn:Hhex; simpl.
    + destruct (new_ObjectId_hex24 _ Hhex) as [id ->]. simpl.
      destruct (List.find (matches (ById id)) l); simpl;
        (split; [ do 2 eexists; split; [ reflexivity | simpl; tauto ]
                | eexists [_]; reflexivity ]).
    + split; [ do 2 eexists; split; [ reflexivity | simpl; tauto ]
             | exists []; reflexivity ].
  - split; [ do 2 eexists; split; [ reflexivity | simpl; tauto ]
           | exists []; reflexivity ].
Qed.

Lemma products_not_admin (entry : jsval) (req : request) (l : list document) :
  strict_eq (isAdmin req) (JBool true) = false ->
  products (snd (prun (post_products E entry req) l)) = l
  /\ products (snd (prun (patch_products_productId E req) l)) = l
  /\ products (snd (prun (delete_products_productId req) l)) = l.
Proof.
  intros Hadmin.
  unfold post_products, patch_products_productId, delete_products_productId.
  pexec. rewrite Hadmin. simpl.
  repeat split; repeat split_match; reflexivity.
Qed.

End Products.

(** X21.  A product without a truthy [name] or without a truthy [price]
    is answered 400 before the client is created; a price of zero is
    such a price. *)
Theorem post_products_rejects (E : Env) (entry : jsval) (req : request)
    (l : list document) :
  truthy (prop (body req) "name") = false
  \/ truthy (prop (body req) "price") = false ->
  prun (post_products E entry req) l
  = (inr (Json 400
            (error "Debes proporcionar un nombre y un precio para el producto.")),
     {| products := l; calls := [] |}).
Proof.
  intros H. unfold post_products.
  assert (Hc : negb (truthy (prop (body req) "name"))
               || negb (truthy (prop (body req) "price")) = true).
  { destruct H as [H | H]; rewrite H; simpl; rewrite ?orb_true_r;
      reflexivity. }
  now rewrite Hc.
Qed.

Lemma post_products_rejects_witness :
  prun (post_products E0 (JStr "t0")
          (as_admin "" [("name", JStr "Agua"); ("price", JNum 0)])) []
  = (inr (Json 400
            (error "Debes proporcionar un nombre y un precio para el producto.")),
     {| products := []; calls := [] |}).
Proof. apply post_products_rejects. right. reflexivity. Defined.

(** X22.  An update of a product whose body has no number as [price] is
    answered 400 for every caller, the client only opened and closed and
    the products as they were: no field of a product can be changed
    without sending a numeric price along. *)
Theorem patch_products_requires_price (E : Env) (req : request)
    (l : list document) :
  not_a_number (prop (body req) "price") = true ->
  prun (patch_products_productId E req) l
  = (inr (Json 400 (error "Los valores a actualizar no pueden estar vacios")),
     {| products := l; calls := [PConnect; PClose] |}).
Proof.
  intros Hp. unfold patch_products_productId.
  assert (Hc : product_values_rejected (body req) = true).
  { unfold product_values_rejected. rewrite Hp.
    now rewrite !orb_true_r. }
  pexec. now rewrite Hc.
Qed.

Lemma patch_products_requires_price_witness :
  prun (patch_products_productId E0
          (as_admin "444444444444444444444444" [("name", JStr "Agua")])) []
  = (inr (Json 400 (error "Los valores a actualizar no pueden estar vacios")),
     {| products := []; calls := [PConnect; PClose] |}).
Proof. apply patch_products_requires_price. reflexivity. Defined.

(** X23.  Reading and deleting a product always answer, the client
    opened first and closed last: the read with 200 or 404 and the
    products unchanged, the delete with 200, 403 or 404. *)
Theorem products_read_delete_answer (req : request) (l : list document) :
  (answers (prun (get_products_productId req) l) [200; 404]
   /\ products (snd (prun (get_products_productId req) l)) = l
   /\ exists mid,
        calls (snd (prun (get_products_productId req) l))
        = (PConnect :: mid ++ [PClose])%list)
  /\ (answers (prun (delete_products_productId req) l) [200; 403; 404]
      /\ exists mid,
           calls (snd (prun (delete_products_productId req) l))
           = (PConnect :: mid ++ [PClose])%list).
Proof.
  split; [ apply get_products_answers | apply delete_products_answers ].
Qed.



(** X25.  A caller who is not an administrator changes no product,
    whether creating, updating or deleting. *)
Theorem products_only_admin_writes (E : Env) (entry : jsval) (req : request)
    (l : list document) :
  strict_eq (isAdmin req) (JBool true) = false ->
  products (snd (prun (post_products E entry req) l)) = l
  /\ products (snd (prun (patch_products_productId E req) l)) = l
  /\ products (snd (prun (delete_products_productId req) l)) = l.
Proof. apply products_not_admin. Qed.

Lemma products_only_admin_writes_witness :
  products (snd (prun (delete_products_productId
                         (as_ana "444444444444444444444444" [])) [order1]))
  = [order1].
Proof.
  apply (products_only_admin_writes E0 (JStr "t0")
           (as_ana "444444444444444444444444" []) [order1]).
  reflexivity.
Defined.

(** *** The administrator after the provisioning *)

(** X26.  After the provisioning on a database where no user has the
    configured email, the administrator can log in with the configured
    email and password, [bcrypt] accepting a password for its own hash;
    the token signs the new identifier, the role [admin] and the
    email. *)
Theorem login_after_bootstrap (E : Env) (A : AuthEnv) (e p : string)
    (req : request) (d : db) :
  e <> "" -> p <> "" ->
  (forall u, In u (users d) -> matches (ByEmail (JStr e)) u = false) ->
  body req !! "email" = Some (JStr e) ->
  body req !! "password" = Some (JStr p) ->
  bcrypt_compare A p (bcrypt_hash E p) = true ->
  outcome (login A req)
    (db_after (initAdminUser E {| adminEmail := JStr e;
                                  adminPassword := JStr p |}) d)
  = inr (Json 200
           (json [("accessToken",
                   JStr (jwt_sign A
                           (json [("userId",
                                   JStr (toHexString
                                           (gen_ObjectId E (users d))));
                                  ("rol", JStr "admin");
                                  ("email", JStr e)])))])).
Proof.
  intros He Hp Hfree Hbe Hbp Hcmp.
  pose proof (find_none_of_all _ _ Hfree) as Hnone.
  unfold db_after. rewrite (initAdminUser_absent E e p He Hp d Hnone). simpl.
  rewrite (login_run A req _ e p (bcrypt_hash E p)
             {| _id := gen_ObjectId E (users d);
                fields := <["email" := JStr e]>
                            (<["password" := JStr (bcrypt_hash E p)]>
                               (<["role" := JStr "admin"]> ∅)) |}
             Hbe He Hbp Hp).
  - rewrite Hcmp. unfold token_payload. simpl.
    repeat first [ rewrite prop_insert_eq
                 | rewrite prop_insert_ne by discriminate ].
    reflexivity.
  - simpl. apply find_app_fresh; [ exact Hnone | ].
    simpl. rewrite lookup_insert_eq. apply value_matches_same.
  - simpl. rewrite lookup_insert_ne by discriminate. apply lookup_insert_eq.
Qed.

Lemma login_after_bootstrap_witness :
  outcome (login A0 (as_ana "" [("email", JStr "boss@bq.com");
                                ("password", JStr "pw")]))
    (db_after (initAdminUser E0 {| adminEmail := JStr "boss@bq.com";
                                   adminPassword := JStr "pw" |}) d0)
  = inr (Json 200
           (json [("accessToken",
                   JStr (jwt_sign A0
                           (json [("userId",
                                   JStr (toHexString
                                           (gen_ObjectId E0 (users d0))));
                                  ("rol", JStr "admin");
                                  ("email", JStr "boss@bq.com")])))])).
Proof.
  apply (login_after_bootstrap E0 A0 "boss@bq.com" "pw"
           (as_ana "" [("email", JStr "boss@bq.com"); ("password", JStr "pw")])
           d0);
    try reflexivity; try discriminate.
  intros u [<- | [<- | []]]; reflexivity.
Defined.
